(** * SlackBot: document selection, context assembly and conversation sessions

    A shallow embedding of [agent.py] (the [DocumentIndex] class, the
    relevance selector and the context formatter) and of [ask_claude] from
    [app.py], followed by the properties of the design document that were
    checked against it.

    Conventions of the embedding.
    - A Python [str] is a Rocq [string]; each character stands for one code
      point in the range U+0000..U+00FF.
    - A Python [dict] whose iteration order is observable ([documents]) is an
      insertion-ordered association list; the per-user [conversations] dict,
      whose order is never observed, is a [gmap].
    - Module-level state ([_index], [conversations]), the logger output and
      the trace of requests sent to the hosted model form one [World] that is
      threaded through a state-and-exception monad [M]: Python mutations made
      before an exception is raised stay visible after it is caught.
    - The hosted model and the file system are the two external collaborators.
      They are parameters: [api] answers a request given the requests made so
      far, [fs] lists the corpus files of a directory. *)

From Stdlib Require Import ZArith Ascii String DecimalString Lia.
From stdpp Require Import base option list strings gmap.

Set Default Proof Using "Type".
Local Open Scope string_scope.
Local Open Scope list_scope.

(** ** Python built-ins used by the program *)

Module Py.

Definition LF : string := String "010"%char "".
Definition DQ : string := String "034"%char "".

(** [str.isspace] on one character, for code points below 256: the ASCII
    controls TAB..CR and FS..US, the space, NEL (U+0085) and the
    no-break space (U+00A0). *)
Definition isspace (c : ascii) : bool :=
  let n := nat_of_ascii c in
  (((9 <=? n) && (n <=? 13)) || ((28 <=? n) && (n <=? 32))
   || (n =? 133) || (n =? 160))%nat.

Fixpoint lstrip (s : string) : string :=
  match s with
  | EmptyString => EmptyString
  | String c s' => if isspace c then lstrip s' else s
  end.

Fixpoint rstrip (s : string) : string :=
  match s with
  | EmptyString => EmptyString
  | String c s' =>
      match rstrip s' with
      | EmptyString => if isspace c then EmptyString else String c EmptyString
      | r => String c r
      end
  end.

(** [s.strip()] *)
Definition strip (s : string) : string := rstrip (lstrip s).

(** [str.upper] on one character.  Only the ASCII letters are mapped.  The
    program uses [upper] for a single purpose, the comparison of the result
    with the ASCII literal NONE; Python maps no character outside a..z to
    one of the letters N, O, E, so that comparison is decided exactly. *)
Definition upper_char (c : ascii) : ascii :=
  let n := nat_of_ascii c in
  if ((97 <=? n) && (n <=? 122))%nat then ascii_of_nat (n - 32) else c.

Fixpoint upper (s : string) : string :=
  match s with
  | EmptyString => EmptyString
  | String c s' => String (upper_char c) (upper s')
  end.

(** [s.split('\n')]: never empty, the empty string splits into one empty
    piece. *)
Fixpoint split_lines (s : string) : list string :=
  match s with
  | EmptyString => [EmptyString]
  | String c s' =>
      if Ascii.eqb c "010"%char then EmptyString :: split_lines s'
      else match split_lines s' with
           | [] => [String c EmptyString]
           | piece :: pieces => String c piece :: pieces
           end
  end.

(** [sep.join(parts)] *)
Fixpoint join (sep : string) (parts : list string) : string :=
  match parts with
  | [] => EmptyString
  | p :: rest =>
      match rest with
      | [] => p
      | _ :: _ => p +:+ sep +:+ join sep rest
      end
  end.

(** [str(n)] for a non-negative integer. *)
Definition str_of_nat (n : nat) : string :=
  NilZero.string_of_uint (Nat.to_uint n).

(** [str(n)] for an arbitrary integer. *)
Definition str_of_int (n : Z) : string :=
  NilZero.string_of_int (Z.to_int n).

(** Truthiness of a string and of a list. *)
Definition truthy_str (s : string) : bool :=
  match s with EmptyString => false | String _ _ => true end.

Definition truthy_list {A} (l : list A) : bool :=
  match l with [] => false | _ :: _ => true end.

(** [enumerate(l, start)] *)
Fixpoint enumerate {A} (start : nat) (l : list A) : list (nat * A) :=
  match l with
  | [] => []
  | x :: l' => (start, x) :: enumerate (S start) l'
  end.

(** [l[:n]] for an arbitrary Python integer [n]: a negative bound counts
    from the end of the list. *)
Definition slice_to {A} (n : Z) (l : list A) : list A :=
  if (0 <=? n)%Z then take (Z.to_nat n) l
  else take (length l - Z.to_nat (- n)) l.

(** [l[-n:]] for a positive literal [n]: the last [n] elements, the whole
    list when it is shorter. *)
Definition slice_last {A} (n : nat) (l : list A) : list A :=
  drop (length l - n) l.

(** [s[:n]] on strings, for a non-negative literal [n]. *)
Definition str_prefix (n : nat) (s : string) : string := substring 0 n s.

(** *** Insertion-ordered dictionaries with string keys *)

Definition dict (V : Type) : Type := list (string * V).

Fixpoint dict_get {V} (k : string) (d : dict V) : option V :=
  match d with
  | [] => None
  | (k', v) :: d' => if String.eqb k k' then Some v else dict_get k d'
  end.

(** [k in d] *)
Definition dict_mem {V} (k : string) (d : dict V) : bool :=
  match dict_get k d with Some _ => true | None => false end.

(** [d[k] = v]: an existing key keeps its position, a new key goes last. *)
Fixpoint dict_set {V} (k : string) (v : V) (d : dict V) : dict V :=
  match d with
  | [] => [(k, v)]
  | (k', v') :: d' =>
      if String.eqb k k' then (k', v) :: d' else (k', v') :: dict_set k v d'
  end.

Definition dict_items {V} (d : dict V) : list (string * V) := d.
Definition dict_len {V} (d : dict V) : nat := length d.
Definition dict_keys {V} (d : dict V) : list string := d.*1.

End Py.

(** ** Data model *)

(** A corpus file, as [json.load] returns it: a JSON object with the keys of
    the document file contract, every one of them optional.  The values are
    typed as that contract types them: text for the five text keys, a
    sequence of strings for [keywords].  [load_from_directory] stores
    whatever object the file holds without checking it, so a file can carry
    values of other types; such files are outside this model ([null] would
    print as [None], and keywords that are not strings would make
    [', '.join(keywords)] raise [TypeError]), and what is proved about
    returning normally is proved for documents of the contract's types. *)
Record JsonDoc := {
  json_title : option string;
  json_short_description : option string;
  json_article : option string;
  json_category : option string;
  json_claude_summary : option string;
  json_keywords : option (list string)
}.

(** A document of the index: the JSON object after [doc['id'] = doc_id] and
    [doc['filepath'] = str(filepath)]. *)
Record Document := {
  doc_id : string;
  doc_filepath : string;
  doc_title : option string;
  doc_short_description : option string;
  doc_article : option string;
  doc_category : option string;
  doc_claude_summary : option string;
  doc_keywords : option (list string)
}.

(** [class DocumentIndex] *)
Record DocumentIndex := {
  documents : Py.dict Document;
  loaded : bool;
  _summaries_cache : string
}.

Inductive Role := user | assistant.

(** One turn of a conversation: [{"role": ..., "content": ...}]. *)
Record Turn := { role : Role; content : string }.

(** The [system] argument of [messages.create]: a plain string in [app.py],
    a list of text blocks (the last one marked as cache breakpoint) in
    [agent.py]. *)
Record SystemBlock := { block_text : string; cache_control : bool }.

Inductive SystemPrompt :=
| SystemText (s : string)
| SystemBlocks (blocks : list SystemBlock).

Record Request := {
  model : string;
  max_tokens : Z;
  system : SystemPrompt;
  messages : list Turn
}.

(** What the program reads of a completed call: [response.content[0].text]
    and the two cache counters of [response.usage]. *)
Record Response := {
  text : string;
  cache_creation_input_tokens : Z;
  cache_read_input_tokens : Z
}.

(** Exceptions.  [APIError] stands for whatever a call to the hosted model
    raises inside the [try] block that issues it (transport error, empty
    content list, unusable usage counters); [FileError] for a file that
    cannot be opened or is not a JSON object. *)
Inductive Exn :=
| KeyError (key : string)
| APIError (msg : string)
| FileError (msg : string).

(** [str(e)] *)
Definition exn_str (e : Exn) : string :=
  match e with
  | KeyError k => "'" +:+ k +:+ "'"
  | APIError msg => msg
  | FileError msg => msg
  end.

Inductive Outcome (A : Type) :=
| Return (a : A)
| Raise (e : Exn).
Arguments Return {A} a.
Arguments Raise {A} e.

Inductive Level := DEBUG | INFO | WARNING | ERROR.

(** The records handed to [logger], one constructor per call site. *)
Inductive LogRecord :=
| DirectoryNotFound (directory : string)
| LoadedFile (title : string)
| ErrorLoading (filepath : string) (e : Exn)
| LoadedDocuments (count : nat) (directory : string)
| NoDocumentsLoaded
| QueryingHaiku (query_prefix : string)
| HaikuResponse (response_text : string)
| CacheCreated (tokens : Z)
| CacheHit (tokens : Z)
| NoRelevantDocuments
| IdsNotFound (invalid : list string)
| SelectedDocuments (count : nat) (ids : list string)
| ErrorCallingHaiku (e : Exn)
| AddedDocuments (count : nat)
| ClaudeAPIError (e : Exn).

Definition level_of (r : LogRecord) : Level :=
  match r with
  | DirectoryNotFound _ | NoDocumentsLoaded | IdsNotFound _ => WARNING
  | LoadedFile _ | HaikuResponse _ => DEBUG
  | ErrorLoading _ _ | ErrorCallingHaiku _ | ClaudeAPIError _ => ERROR
  | LoadedDocuments _ _ | QueryingHaiku _ | CacheCreated _ | CacheHit _
  | NoRelevantDocuments | SelectedDocuments _ _ | AddedDocuments _ => INFO
  end.

(** One file matched by [dir_path.glob("*.json")]: its path, its stem and
    what opening and parsing it gives. *)
Record CorpusFile := {
  file_path : string;
  file_stem : string;
  file_json : Outcome JsonDoc
}.

(** The process state: the global [_index], the global [conversations], the
    requests sent to the hosted model so far and the log, oldest first. *)
Record World := {
  _index : DocumentIndex;
  conversations : gmap string (list Turn);
  api_calls : list Request;
  log : list LogRecord
}.

(** ** The state-and-exception monad *)

Module Monad.

Definition M (A : Type) : Type := World -> Outcome A * World.

Definition ret {A} (a : A) : M A := fun w => (Return a, w).

Definition bind {A B} (m : M A) (k : A -> M B) : M B :=
  fun w =>
    match m w with
    | (Return a, w') => k a w'
    | (Raise e, w') => (Raise e, w')
    end.

Definition raise {A} (e : Exn) : M A := fun w => (Raise e, w).

(** [try: body / except Exception as e: handler e] *)
Definition try_except {A} (body : M A) (handler : Exn -> M A) : M A :=
  fun w =>
    match body w with
    | (Return a, w') => (Return a, w')
    | (Raise e, w') => handler e w'
    end.

Definition get : M World := fun w => (Return w, w).
Definition put (w : World) : M unit := fun _ => (Return tt, w).

Definition lift_outcome {A} (o : Outcome A) : M A := fun w => (o, w).

(** [for x in xs: body x] *)
Fixpoint for_each {A} (xs : list A) (body : A -> M unit) : M unit :=
  match xs with
  | [] => ret tt
  | x :: xs' => bind (body x) (fun _ => for_each xs' body)
  end.

Definition when (b : bool) (m : M unit) : M unit :=
  if b then m else ret tt.

End Monad.
Import Monad.

Declare Scope py_scope.
Delimit Scope py_scope with py.
Notation "'let*' x ':=' m 'in' k" := (bind m (fun x => k))
  (at level 10, x name, m at level 100, k at level 200) : py_scope.
Notation "m ';;' k" := (bind m (fun _ => k))
  (at level 100, k at level 200, right associativity) : py_scope.
Local Open Scope py_scope.

(** Field updates of the global state. *)
Definition set_index (ix : DocumentIndex) (w : World) : World :=
  {| _index := ix; conversations := conversations w;
     api_calls := api_calls w; log := log w |}.

Definition set_conversations (c : gmap string (list Turn)) (w : World) : World :=
  {| _index := _index w; conversations := c;
     api_calls := api_calls w; log := log w |}.

Definition add_call (r : Request) (w : World) : World :=
  {| _index := _index w; conversations := conversations w;
     api_calls := api_calls w ++ [r]; log := log w |}.

Definition add_log (r : LogRecord) (w : World) : World :=
  {| _index := _index w; conversations := conversations w;
     api_calls := api_calls w; log := log w ++ [r] |}.

Definition logger (r : LogRecord) : M unit := fun w => (Return tt, add_log r w).

Definition get_index : M DocumentIndex := fun w => (Return (_index w), w).
Definition put_index (ix : DocumentIndex) : M unit :=
  fun w => (Return tt, set_index ix w).

(** The fresh process: [DocumentIndex()], [conversations = {}]. *)
Definition new_index : DocumentIndex :=
  {| documents := []; loaded := false; _summaries_cache := "" |}.

Definition initial_world : World :=
  {| _index := new_index; conversations := ∅; api_calls := []; log := [] |}.

(** ** agent.py *)

Module Agent.
Section WithCollaborators.

(** The hosted model: the outcome of [client.messages.create] followed by
    the reads of [response.content[0].text] and [response.usage], given the
    requests sent before and the request itself. *)
Context (api : list Request -> Request -> Outcome Response).

(** The file system: [None] when [Path(directory).exists()] is false,
    otherwise the files matched by [glob("*.json")] in iteration order. *)
Context (fs : string -> option (list CorpusFile)).

(** [client.messages.create(...)]; the request is recorded whether or not
    the call succeeds.  The construction of the client object ([_get_client]
    in [agent.py], the global [claude] in [app.py]) has no effect the program
    observes and is left out. *)
Definition messages_create (req : Request) : M Response :=
  fun w => (api (api_calls w) req, add_call req w).

Definition make_document (doc_id filepath : string) (doc : JsonDoc) : Document :=
  {| doc_id := doc_id;
     doc_filepath := filepath;
     doc_title := json_title doc;
     doc_short_description := json_short_description doc;
     doc_article := json_article doc;
     doc_category := json_category doc;
     doc_claude_summary := json_claude_summary doc;
     doc_keywords := json_keywords doc |}.

(** The body of the loop of [load_from_directory] for one file. *)
Definition load_file (filepath : CorpusFile) : M unit :=
  try_except
    (let* doc := lift_outcome (file_json filepath) in
     let doc_id := file_stem filepath in
     let doc := make_document doc_id (file_path filepath) doc in
     let* self := get_index in
     put_index {| documents := Py.dict_set doc_id doc (documents self);
                  loaded := loaded self;
                  _summaries_cache := _summaries_cache self |} ;;
     logger (LoadedFile (default doc_id (doc_title doc))))
    (fun e => logger (ErrorLoading (file_path filepath) e)).

(** [DocumentIndex.load_from_directory], on the global [_index]. *)
Definition load_from_directory (directory : string) : M unit :=
  match fs directory with
  | None => logger (DirectoryNotFound directory)
  | Some files =>
      for_each files load_file ;;
      let* self := get_index in
      put_index {| documents := documents self;
                   loaded := true;
                   _summaries_cache := "" |} ;;
      let* self := get_index in
      logger (LoadedDocuments (Py.dict_len (documents self)) directory)
  end.

(** One entry of the summaries listing. *)
Definition summary_entry (i : nat) (doc_id : string) (doc : Document) : string :=
  let title := default "Untitled" (doc_title doc) in
  let summary :=
    match doc_claude_summary doc with
    | Some s => s
    | None => default "" (doc_short_description doc)
    end in
  let keywords := default [] (doc_keywords doc) in
  let category := default "" (doc_category doc) in
  let entry := "[" +:+ Py.str_of_nat i +:+ "] " +:+ doc_id +:+ Py.LF in
  let entry := entry +:+ "    Title: " +:+ title +:+ Py.LF in
  let entry := entry +:+ "    Category: " +:+ category +:+ Py.LF in
  let entry := entry +:+ "    Summary: " +:+ summary +:+ Py.LF in
  if Py.truthy_list keywords
  then entry +:+ "    Keywords: " +:+ Py.join ", " keywords +:+ Py.LF
  else entry.

(** The [for] loop of [get_summaries_for_selection]. *)
Definition summary_lines (docs : Py.dict Document) : list string :=
  foldl (fun lines '(i, (doc_id, doc)) => lines ++ [summary_entry i doc_id doc])
        [] (Py.enumerate 1 (Py.dict_items docs)).

(** [DocumentIndex.get_summaries_for_selection] *)
Definition get_summaries_for_selection : M string :=
  let* self := get_index in
  if Py.truthy_str (_summaries_cache self) then ret (_summaries_cache self)
  else
    let lines := summary_lines (documents self) in
    put_index {| documents := documents self;
                 loaded := loaded self;
                 _summaries_cache := Py.join Py.LF lines |} ;;
    let* self := get_index in
    ret (_summaries_cache self).

(** [DocumentIndex.estimate_summary_tokens] *)
Definition estimate_summary_tokens : M nat :=
  let* summaries := get_summaries_for_selection in
  ret (String.length summaries / 4)%nat.

(** [self.documents[d_id]] *)
Definition documents_getitem (d_id : string) : M Document :=
  let* self := get_index in
  match Py.dict_get d_id (documents self) with
  | Some doc => ret doc
  | None => raise (KeyError d_id)
  end.

(** [DocumentIndex.get_documents_by_ids]:
    [[self.documents[d_id] for d_id in doc_ids if d_id in self.documents]] *)
Fixpoint get_documents_by_ids (doc_ids : list string) : M (list Document) :=
  match doc_ids with
  | [] => ret []
  | d_id :: rest =>
      let* self := get_index in
      if Py.dict_mem d_id (documents self)
      then let* doc := documents_getitem d_id in
           let* docs := get_documents_by_ids rest in
           ret (doc :: docs)
      else get_documents_by_ids rest
  end.

Definition load_documents (directory : string) : M unit :=
  load_from_directory directory.

Definition SELECTOR_MODEL : string := "claude-haiku-4-5-20251001".

Definition selector_instructions (max_docs : Z) (summaries : string) : string :=
  "You are a document retrieval assistant. Given a user query and a list of help center documents, identify which documents are most relevant to answering the query."
  +:+ Py.LF +:+ Py.LF
  +:+ "Rules:" +:+ Py.LF
  +:+ "- Return ONLY the document IDs that are relevant, one per line" +:+ Py.LF
  +:+ "- Return at most " +:+ Py.str_of_int max_docs +:+ " documents" +:+ Py.LF
  +:+ "- If no documents are relevant, return " +:+ Py.DQ +:+ "NONE" +:+ Py.DQ +:+ Py.LF
  +:+ "- Do not explain your choices, just list the IDs" +:+ Py.LF
  +:+ Py.LF
  +:+ "Example output:" +:+ Py.LF
  +:+ "Cancelling_a_guest_reservation___Help_Center" +:+ Py.LF
  +:+ "Cancellation_policies___Help_Center" +:+ Py.LF
  +:+ Py.LF
  +:+ "Available Documents:" +:+ Py.LF
  +:+ summaries.

Definition system_blocks (max_docs : Z) (summaries : string) : list SystemBlock :=
  [ {| block_text := selector_instructions max_docs summaries;
       cache_control := false |};
    {| block_text := "Ready to select relevant documents.";
       cache_control := true |} ].

Definition selector_request (query : string) (max_docs : Z) (summaries : string)
  : Request :=
  {| model := SELECTOR_MODEL;
     max_tokens := 256;
     system := SystemBlocks (system_blocks max_docs summaries);
     messages :=
       [ {| role := user;
            content := "Which document IDs are most relevant to this query: "
                       +:+ query |} ] |}.

(** [[line.strip() for line in response_text.split('\n') if line.strip()]] *)
Fixpoint stripped_lines (lines : list string) : list string :=
  match lines with
  | [] => []
  | line :: rest =>
      if Py.truthy_str (Py.strip line)
      then Py.strip line :: stripped_lines rest
      else stripped_lines rest
  end.

(** [[d_id for d_id in doc_ids if d_id in _index.documents]] *)
Fixpoint valid_only (docs : Py.dict Document) (doc_ids : list string)
  : list string :=
  match doc_ids with
  | [] => []
  | d_id :: rest =>
      if Py.dict_mem d_id docs then d_id :: valid_only docs rest
      else valid_only docs rest
  end.

(** [set(doc_ids) - set(valid_ids)], listed in response order. *)
Definition invalid_ids (doc_ids valid_ids : list string) : list string :=
  List.filter (fun d => negb (bool_decide (d ∈ valid_ids))) doc_ids.

(** [select_relevant_docs] *)
Definition select_relevant_docs (query : string) (max_docs : Z)
  : M (list string) :=
  let* ix := get_index in
  if negb (loaded ix) || (Py.dict_len (documents ix) =? 0)%nat then
    logger NoDocumentsLoaded ;;
    ret []
  else
    let* summaries := get_summaries_for_selection in
    logger (QueryingHaiku (Py.str_prefix 50 query)) ;;
    try_except
      (let* response := messages_create (selector_request query max_docs summaries) in
       let response_text := Py.strip (text response) in
       logger (HaikuResponse response_text) ;;
       let cache_created := cache_creation_input_tokens response in
       let cache_read := cache_read_input_tokens response in
       when (0 <? cache_created)%Z (logger (CacheCreated cache_created)) ;;
       when (0 <? cache_read)%Z (logger (CacheHit cache_read)) ;;
       if String.eqb (Py.upper response_text) "NONE" then
         logger NoRelevantDocuments ;;
         ret []
       else
         let doc_ids := stripped_lines (Py.split_lines response_text) in
         let* ix := get_index in
         let valid_ids := valid_only (documents ix) doc_ids in
         when (negb (length valid_ids =? length doc_ids)%nat)
              (logger (IdsNotFound (invalid_ids doc_ids valid_ids))) ;;
         logger (SelectedDocuments (length valid_ids)
                                   (Py.slice_to max_docs valid_ids)) ;;
         ret (Py.slice_to max_docs valid_ids))
      (fun e =>
         logger (ErrorCallingHaiku e) ;;
         ret []).

Definition get_documents (doc_ids : list string) : M (list Document) :=
  get_documents_by_ids doc_ids.

(** [retrieve_documents] *)
Definition retrieve_documents (query : string) (max_docs : Z)
  : M (list Document) :=
  let* doc_ids := select_relevant_docs query max_docs in
  if negb (Py.truthy_list doc_ids) then ret []
  else get_documents doc_ids.

(** One block of the context, [i] being the 1-based position. *)
Definition context_part (i : nat) (doc : Document) : string :=
  let title := default "Untitled" (doc_title doc) in
  let article := default "" (doc_article doc) in
  let category := default "" (doc_category doc) in
  "--- Document " +:+ Py.str_of_nat i +:+ ": " +:+ title +:+ " ---" +:+ Py.LF
  +:+ "Category: " +:+ category +:+ Py.LF
  +:+ "Content:" +:+ Py.LF +:+ article +:+ Py.LF.

(** The [for] loop of [format_context_for_claude]. *)
Definition context_parts (docs : list Document) : list string :=
  foldl (fun parts '(i, doc) => parts ++ [context_part i doc])
        [] (Py.enumerate 1 docs).

(** [format_context_for_claude] *)
Definition format_context_for_claude (docs : list Document) : string :=
  if negb (Py.truthy_list docs) then ""
  else Py.join (Py.LF +:+ Py.LF) (context_parts docs).

End WithCollaborators.
End Agent.

(** ** app.py *)

Module App.
Section WithCollaborators.

Context (api : list Request -> Request -> Outcome Response).

Definition DOCS_DIRECTORY : string := "doc_info".
Definition CLAUDE_MODEL : string := "claude-haiku-4-5-20251001".

Definition prompt_instructions : string :=
  "You an expert AI assistant in a Slack workspace." +:+ Py.LF
  +:+ Py.LF
  +:+ "Instructions:" +:+ Py.LF
  +:+ "- Focus on answering the user's most recent message" +:+ Py.LF
  +:+ "- Use prior messages in the conversation as context" +:+ Py.LF
  +:+ "- Be helpful but concise" +:+ Py.LF
  +:+ "- If the user's question is unclear, ask for clarification" +:+ Py.LF.

Definition SYSTEM_PROMPT : string := prompt_instructions.

(** [SYSTEM_PROMPT_WITH_CONTEXT.format(context=context)] *)
Definition SYSTEM_PROMPT_WITH_CONTEXT (context : string) : string :=
  prompt_instructions
  +:+ Py.LF
  +:+ "You have access to the following help center documentation:" +:+ Py.LF
  +:+ Py.LF
  +:+ context +:+ Py.LF
  +:+ Py.LF
  +:+ "Use this documentation to provide accurate answers. If you used the documentation, cite the title of the articles."
  +:+ Py.LF
  +:+ "If the documentation doesn't cover the question, ignore it" +:+ Py.LF.

(** [conversations[user_id]] *)
Definition conversations_getitem (user_id : string) : M (list Turn) :=
  let* w := get in
  match conversations w !! user_id with
  | Some history => ret history
  | None => raise (KeyError user_id)
  end.

(** [conversations[user_id] = history] *)
Definition conversations_setitem (user_id : string) (history : list Turn)
  : M unit :=
  fun w => (Return tt, set_conversations (<[user_id := history]> (conversations w)) w).

(** [conversations[user_id].append(turn)] *)
Definition conversations_append (user_id : string) (turn : Turn) : M unit :=
  let* history := conversations_getitem user_id in
  conversations_setitem user_id (history ++ [turn]).

(** [ask_claude] *)
Definition ask_claude (user_id message : string) : M string :=
  let* w := get in
  when (negb (bool_decide (is_Some (conversations w !! user_id))))
       (conversations_setitem user_id []) ;;
  let* documents := Agent.retrieve_documents api message 3 in
  let* system_prompt :=
    if Py.truthy_list documents then
      let context := Agent.format_context_for_claude documents in
      let system_prompt := SYSTEM_PROMPT_WITH_CONTEXT context in
      logger (AddedDocuments (length documents)) ;;
      ret system_prompt
    else ret SYSTEM_PROMPT in
  conversations_append user_id {| role := user; content := message |} ;;
  (let* history := conversations_getitem user_id in
   conversations_setitem user_id (Py.slice_last 10 history)) ;;
  try_except
    (let* history := conversations_getitem user_id in
     let* response :=
       Agent.messages_create api
         {| model := CLAUDE_MODEL;
            max_tokens := 2048;
            system := SystemText system_prompt;
            messages := history |} in
     let reply := text response in
     conversations_append user_id {| role := assistant; content := reply |} ;;
     ret reply)
    (fun e =>
       logger (ClaudeAPIError e) ;;
       ret ("API error: " +:+ exn_str e)).

(** [reset_command], for the user of the command; the value is the text
    handed to [say]. *)
Definition reset_command (user_id : string) : M string :=
  conversations_setitem user_id [] ;;
  ret "Conversation reset!".

End WithCollaborators.
End App.

(** The session of a user, empty when the user has none. *)
Definition session (user_id : string) (w : World) : list Turn :=
  default [] (conversations w !! user_id).

(** ** Reference definitions, in the words of the design document *)

(** The literal token NONE in any casing. *)
Definition is_none_token (t : string) : bool :=
  match t with
  | String c1 (String c2 (String c3 (String c4 EmptyString))) =>
      (Ascii.eqb c1 "N" || Ascii.eqb c1 "n")
      && (Ascii.eqb c2 "O" || Ascii.eqb c2 "o")
      && (Ascii.eqb c3 "N" || Ascii.eqb c3 "n")
      && (Ascii.eqb c4 "E" || Ascii.eqb c4 "e")
  | _ => false
  end.

(** The parsing policy of the relevance selector: trim; NONE gives nothing;
    otherwise split on newlines, trim each line, drop the empty lines, keep
    the lines that are ids of the index. *)
Definition parsing_policy (docs : Py.dict Document) (response : string)
  : list string :=
  let trimmed := Py.strip response in
  if is_none_token trimmed then []
  else
    let lines := map Py.strip (Py.split_lines trimmed) in
    let non_empty := List.filter (fun l => negb (String.eqb l "")) lines in
    List.filter (fun l => bool_decide (is_Some (Py.dict_get l docs))) non_empty.

(** The lines of a response that the policy discards as unknown ids. *)
Definition unknown_lines (docs : Py.dict Document) (response : string)
  : list string :=
  let lines := map Py.strip (Py.split_lines (Py.strip response)) in
  let non_empty := List.filter (fun l => negb (String.eqb l "")) lines in
  List.filter (fun l => negb (bool_decide (is_Some (Py.dict_get l docs)))) non_empty.

(** [lookup(ids)]: the documents of the requested ids that are present, in
    request order. *)
Definition lookup_present (docs : Py.dict Document) (ids : list string)
  : list Document :=
  omap (fun d_id => Py.dict_get d_id docs) ids.

(** The block of the assembled context for the document at 1-based
    position [i]. *)
Definition context_block (i : nat) (doc : Document) : string :=
  "--- Document " +:+ Py.str_of_nat i +:+ ": "
  +:+ default "Untitled" (doc_title doc) +:+ " ---" +:+ Py.LF
  +:+ "Category: " +:+ default "" (doc_category doc) +:+ Py.LF
  +:+ "Content:" +:+ Py.LF
  +:+ default "" (doc_article doc) +:+ Py.LF.

(** The value [get_summaries_for_selection] returns in a given index state. *)
Definition listing_of (ix : DocumentIndex) : string :=
  if Py.truthy_str (_summaries_cache ix) then _summaries_cache ix
  else Py.join Py.LF (Agent.summary_lines (documents ix)).

(** Two worlds of one load generation: same corpus, same flag, and the
    same value for the next listing. *)
Definition same_generation (w w' : World) : Prop :=
  documents (_index w') = documents (_index w)
  /\ loaded (_index w') = loaded (_index w)
  /\ listing_of (_index w') = listing_of (_index w).

(** The history sent with the generation request: the session with the new
    user turn appended, cut to its last ten turns. *)
Definition sent_history (user_id message : string) (w : World) : list Turn :=
  Py.slice_last 10 (session user_id w ++ [{| role := user; content := message |}]).

(** The corpus after the files of a directory were read in order: a file
    that parses is stored under its stem, a file that does not is skipped. *)
Definition merge_files (files : list CorpusFile) (docs : Py.dict Document)
  : Py.dict Document :=
  foldl (fun docs f =>
           match file_json f with
           | Return j =>
               Py.dict_set (file_stem f)
                           (Agent.make_document (file_stem f) (file_path f) j) docs
           | Raise _ => docs
           end) docs files.

(** The stems of the files of a directory that parse. *)
Definition parsed_stems (files : list CorpusFile) : list string :=
  omap (fun f => match file_json f with
                 | Return _ => Some (file_stem f)
                 | Raise _ => None
                 end) files.

(** The operations a caller can run against the process. *)
Inductive Op :=
| OpLoad (directory : string)
| OpListing
| OpEstimate
| OpLookup (ids : list string)
| OpSelect (query : string) (max_docs : Z)
| OpRetrieve (query : string) (max_docs : Z)
| OpAsk (user_id message : string)
| OpReset (user_id : string).

Definition is_load (op : Op) : bool :=
  match op with OpLoad _ => true | _ => false end.

Section Run.
Context (api : list Request -> Request -> Outcome Response).
Context (fs : string -> option (list CorpusFile)).

(** Running one operation, its value dropped. *)
Definition run_op (op : Op) (w : World) : World :=
  match op with
  | OpLoad directory => snd (Agent.load_documents fs directory w)
  | OpListing => snd (Agent.get_summaries_for_selection w)
  | OpEstimate => snd (Agent.estimate_summary_tokens w)
  | OpLookup ids => snd (Agent.get_documents ids w)
  | OpSelect query max_docs => snd (Agent.select_relevant_docs api query max_docs w)
  | OpRetrieve query max_docs => snd (Agent.retrieve_documents api query max_docs w)
  | OpAsk user_id message => snd (App.ask_claude api user_id message w)
  | OpReset user_id => snd (App.reset_command user_id w)
  end.

Definition run_ops (ops : list Op) (w : World) : World :=
  foldl (fun w op => run_op op w) w ops.

End Run.

(** [n] successive calls of [ask_claude] by one user; the [k]-th message is
    [message k]. *)
Fixpoint ask_n (api : list Request -> Request -> Outcome Response)
  (user_id : string) (message : nat -> string) (k n : nat) (w : World) : World :=
  match n with
  | 0 => w
  | S n' =>
      ask_n api user_id message (S k) n'
            (snd (App.ask_claude api user_id (message k) w))
  end.

(** ** Concrete collaborators and states used in the examples *)

Module Sample.

(** A hosted model that answers every request with a fixed text. *)
Definition api_fixed (reply : string) : list Request -> Request -> Outcome Response :=
  fun _ _ => Return {| text := reply;
                       cache_creation_input_tokens := 0;
                       cache_read_input_tokens := 0 |}.

(** A hosted model that answers with the content of the last turn it was
    sent, prefixed by [re: ]. *)
Definition api_echo : list Request -> Request -> Outcome Response :=
  fun _ req =>
    Return {| text := "re: " +:+ from_option content "" (last (messages req));
              cache_creation_input_tokens := 0;
              cache_read_input_tokens := 0 |}.

(** A hosted model that is unreachable. *)
Definition api_down : list Request -> Request -> Outcome Response :=
  fun _ _ => Raise (APIError "Connection error.").

Definition doc (stem : string) : Document :=
  {| doc_id := stem;
     doc_filepath := "doc_info/" +:+ stem +:+ ".json";
     doc_title := Some ("Title of " +:+ stem);
     doc_short_description := Some "short";
     doc_article := Some ("Body of " +:+ stem);
     doc_category := Some "Homeowners";
     doc_claude_summary := None;
     doc_keywords := Some ["cancel"; "refund"] |}.

(** A loaded index of three documents whose listing was already computed
    and cached as [cached]. *)
Definition index_abc (cached : string) : DocumentIndex :=
  {| documents := [("a", doc "a"); ("b", doc "b"); ("c", doc "c")];
     loaded := true;
     _summaries_cache := cached |}.

Definition world_abc (cached : string) : World :=
  set_index (index_abc cached) initial_world.

Definition json_b : JsonDoc :=
  {| json_title := Some "New b";
     json_short_description := None;
     json_article := Some "New body";
     json_category := None;
     json_claude_summary := Some "New summary";
     json_keywords := None |}.

(** A file system with one directory, [more], holding a well-formed [b.json],
    a malformed [x.json] and a well-formed [d.json]. *)
Definition fs_more (directory : string) : option (list CorpusFile) :=
  if String.eqb directory "more" then
    Some [ {| file_path := "more/b.json"; file_stem := "b";
              file_json := Return json_b |};
           {| file_path := "more/x.json"; file_stem := "x";
              file_json := Raise (FileError "Expecting value") |};
           {| file_path := "more/d.json"; file_stem := "d";
              file_json := Return json_b |} ]
  else None.

(** The [k]-th message of a scripted user. *)
Definition message (k : nat) : string := "m" +:+ Py.str_of_nat k.

Definition turn (r : Role) (c : string) : Turn := {| role := r; content := c |}.

(** The generation request of a call made without context documents. *)
Definition bare_request (history : list Turn) : Request :=
  {| model := App.CLAUDE_MODEL;
     max_tokens := 2048;
     system := SystemText App.SYSTEM_PROMPT;
     messages := history |}.

(** Three known ids on three lines. *)
Definition three_ids : string := "a" +:+ Py.LF +:+ "b" +:+ Py.LF +:+ "c".

(** An unknown id, a blank line and three known ids with stray spaces. *)
Definition noisy_ids : string :=
  " zz " +:+ Py.LF +:+ Py.LF +:+ "a " +:+ Py.LF +:+ "b" +:+ Py.LF +:+ " c" +:+ Py.LF.

End Sample.

(** ** Reference definitions for the properties beyond the design document *)

(** The guard of the selector passes: the store is loaded and not empty. *)
Definition store_active (ix : DocumentIndex) : bool :=
  loaded ix && negb (Py.dict_len (documents ix) =? 0)%nat.

(** The requests one call of the selector sends. *)
Definition selector_calls (query : string) (max_docs : Z) (w : World)
  : list Request :=
  if store_active (_index w)
  then [Agent.selector_request query max_docs (listing_of (_index w))]
  else [].

(** The ids one call of the selector returns. *)
Definition selection_of (api : list Request -> Request -> Outcome Response)
  (query : string) (max_docs : Z) (w : World) : list string :=
  if store_active (_index w) then
    match api (api_calls w)
              (Agent.selector_request query max_docs (listing_of (_index w))) with
    | Return resp =>
        Py.slice_to max_docs (parsing_policy (documents (_index w)) (text resp))
    | Raise _ => []
    end
  else [].

(** The system prompt of the generation request for the retrieved
    documents. *)
Definition prompt_for (docs : list Document) : string :=
  if Py.truthy_list docs
  then App.SYSTEM_PROMPT_WITH_CONTEXT (Agent.format_context_for_claude docs)
  else App.SYSTEM_PROMPT.

(** The generation request of one call of [ask_claude]. *)
Definition generation_request
  (api : list Request -> Request -> Outcome Response)
  (user_id message : string) (w : World) : Request :=
  {| model := App.CLAUDE_MODEL;
     max_tokens := 2048;
     system := SystemText
                 (prompt_for (lookup_present (documents (_index w))
                                             (selection_of api message 3 w)));
     messages := sent_history user_id message w |}.

(** The log record the loading loop emits for one file. *)
Definition file_record (f : CorpusFile) : LogRecord :=
  match file_json f with
  | Return j => LoadedFile (default (file_stem f) (json_title j))
  | Raise e => ErrorLoading (file_path f) e
  end.

Definition parses_as (k : string) (f : CorpusFile) : bool :=
  match file_json f with
  | Return _ => String.eqb (file_stem f) k
  | Raise _ => false
  end.

(** The last file of a directory listing that parses and has stem [k]. *)
Definition last_parsed (k : string) (files : list CorpusFile)
  : option CorpusFile :=
  List.find (parses_as k) (rev files).

(** The keys a loading loop leaves, from the keys before it: a stem that is
    new goes last, a stem that is present stays where it is. *)
Definition keys_after (files : list CorpusFile) (keys : list string)
  : list string :=
  foldl (fun keys f =>
           match file_json f with
           | Return _ =>
               if bool_decide (file_stem f ∈ keys) then keys
               else keys ++ [file_stem f]
           | Raise _ => keys
           end) keys files.

(** Well-formed index: the keys are distinct, every document is stored
    under its own id, and a store that holds documents is flagged loaded. *)
Definition index_wf (ix : DocumentIndex) : Prop :=
  NoDup (Py.dict_keys (documents ix))
  /\ (forall k d, Py.dict_get k (documents ix) = Some d -> doc_id d = k)
  /\ (documents ix <> [] -> loaded ix = true).

(** The next listing is the rendering of the documents the index holds. *)
Definition cache_fresh (ix : DocumentIndex) : Prop :=
  listing_of ix = Py.join Py.LF (Agent.summary_lines (documents ix)).

(** No session holds more than eleven turns. *)
Definition sessions_bounded (w : World) : Prop :=
  forall u history, conversations w !! u = Some history -> length history <= 11.

(** The document the loading loop stores for a file that parses. *)
Definition loaded_document (f : CorpusFile) : option Document :=
  match file_json f with
  | Return j => Some (Agent.make_document (file_stem f) (file_path f) j)
  | Raise _ => None
  end.

(** The world after the loading loop ran over [files]. *)
Definition world_after_files (files : list CorpusFile) (w : World) : World :=
  {| _index := {| documents := merge_files files (documents (_index w));
                  loaded := loaded (_index w);
                  _summaries_cache := _summaries_cache (_index w) |};
     conversations := conversations w;
     api_calls := api_calls w;
     log := log w ++ map file_record files |}.

(** The turns a call leaves in the caller's session. *)
Definition session_after (user_id message : string) (w : World)
  (result : Outcome Response) : list Turn :=
  sent_history user_id message w
  ++ match result with
     | Return resp => [{| role := assistant; content := text resp |}]
     | Raise _ => []
     end.

(** What a call returns. *)
Definition reply_of (result : Outcome Response) : string :=
  match result with
  | Return resp => text resp
  | Raise e => "API error: " +:+ exn_str e
  end.

Definition is_error (r : LogRecord) : bool :=
  match level_of r with ERROR => true | _ => false end.

(** The three properties every state of a running process has. *)
Definition process_invariant (w : World) : Prop :=
  index_wf (_index w) /\ cache_fresh (_index w) /\ sessions_bounded w.

(** *** Further sample inputs *)

Module Sample2.

(** The listing of the directory [more] of [Sample.fs_more]. *)
Definition files_more : list CorpusFile :=
  [ {| file_path := "more/b.json"; file_stem := "b";
       file_json := Return Sample.json_b |};
    {| file_path := "more/x.json"; file_stem := "x";
       file_json := Raise (FileError "Expecting value") |};
    {| file_path := "more/d.json"; file_stem := "d";
       file_json := Return Sample.json_b |} ].

End Sample2.

(** ** app.py: the Slack handlers *)

(** The handlers of [app.py] talk to Slack through [client], [say] and
    [ack].  Slack is a third external collaborator: the calls made to it are
    recorded in order, and what each call gives back (for a posted message
    its [ts], when the response has one) or raises is a parameter. *)

Module Bolt.

(** What the handlers read of an event payload; [None] is an absent key. *)
Record Event := {
  ev_channel_type : option string;
  ev_bot_id : option string;
  ev_user : option string;
  ev_channel : option string;
  ev_text : option string;
  ev_file_id : option string
}.

(** What the handlers read of a slash-command payload. *)
Record Command := {
  cmd_user_id : option string;
  cmd_channel_id : option string;
  cmd_text : option string
}.

Inductive SlackCall :=
| ChatPostMessage (channel text : string)
| ChatUpdate (channel ts text : string)
| Say (text : string)
| Ack.

(** What a handler can raise: an exception of the core, or an error of a
    Slack call. *)
Inductive Fault :=
| CoreExn (e : Exn)
| SlackApiError (msg : string).

Inductive Result (A : Type) :=
| Ok (a : A)
| Failed (f : Fault).
Arguments Ok {A} a.
Arguments Failed {A} f.

(** The process of [app.py]: the core state, the calls made to Slack so
    far, and the global set [file_ids]. *)
Record Process := {
  world : World;
  slack_calls : list SlackCall;
  file_ids : gset string
}.

Definition H (A : Type) : Type := Process -> Result A * Process.

Definition hret {A} (a : A) : H A := fun p => (Ok a, p).

Definition hbind {A B} (m : H A) (k : A -> H B) : H B :=
  fun p =>
    match m p with
    | (Ok a, p') => k a p'
    | (Failed f, p') => (Failed f, p')
    end.

Definition hraise {A} (f : Fault) : H A := fun p => (Failed f, p).

(** Running a computation of the core inside a handler. *)
Definition lift {A} (m : M A) : H A :=
  fun p =>
    let '(o, w') := m (world p) in
    let p' := {| world := w'; slack_calls := slack_calls p;
                 file_ids := file_ids p |} in
    match o with
    | Return a => (Ok a, p')
    | Raise e => (Failed (CoreExn e), p')
    end.

(** [payload[key]] *)
Definition getitem (key : string) (value : option string) : H string :=
  match value with
  | Some v => hret v
  | None => hraise (CoreExn (KeyError key))
  end.

(** Truthiness of [payload.get(key)]. *)
Definition truthy_opt (value : option string) : bool :=
  match value with
  | Some v => Py.truthy_str v
  | None => false
  end.

(** The character class [A-Z0-9]. *)
Definition is_id_char (c : ascii) : bool :=
  let n := nat_of_ascii c in
  (((65 <=? n) && (n <=? 90)) || ((48 <=? n) && (n <=? 57)))%nat.

(** The length of the longest prefix made of [A-Z0-9]. *)
Fixpoint id_run (s : string) : nat :=
  match s with
  | EmptyString => 0
  | String c s' => if is_id_char c then S (id_run s') else 0
  end.

(** The length of the match of [<@[A-Z0-9]+>] at the head of [s], if there
    is one.  The class does not contain [>], so the only candidate is the
    longest run. *)
Definition mention_at (s : string) : option nat :=
  match s with
  | String "<" (String "@" rest) =>
      let n := id_run rest in
      if (0 <? n)%nat && String.eqb (substring n 1 rest) ">"
      then Some (n + 3) else None
  | _ => None
  end.

(** The scan of [re.sub]: left to right, [skip] characters of a match still
    to drop; a match found at the current position is dropped whole and the
    scan resumes after it. *)
Fixpoint sub_mentions_from (skip : nat) (s : string) : string :=
  match s with
  | EmptyString => EmptyString
  | String c s' =>
      match skip with
      | S k => sub_mentions_from k s'
      | 0 =>
          match mention_at s with
          | Some n => sub_mentions_from (n - 1) s'
          | None => String c (sub_mentions_from 0 s')
          end
      end
  end.

(** [re.sub(r"<@[A-Z0-9]+>", "", text)] *)
Definition sub_mentions (text : string) : string := sub_mentions_from 0 text.

Definition THINKING : string := "Claude is Thinking...".

Section WithCollaborators.

Context (api : list Request -> Request -> Outcome Response).

(** Slack: the outcome of a call given the calls made before; for
    [chat_postMessage] the value is the [ts] of the response, if any. *)
Context (slack : list SlackCall -> SlackCall -> Result (option string)).

Definition slack_call (c : SlackCall) : H (option string) :=
  fun p =>
    (slack (slack_calls p) c,
     {| world := world p; slack_calls := slack_calls p ++ [c];
        file_ids := file_ids p |}).

Declare Scope bolt_scope.
Notation "'let*' x ':=' m 'in' k" := (hbind m (fun x => k))
  (at level 10, x name, m at level 100, k at level 200) : bolt_scope.
Notation "m ';;' k" := (hbind m (fun _ => k))
  (at level 100, k at level 200, right associativity) : bolt_scope.
Local Open Scope bolt_scope.

(** [handle_dm] *)
Definition handle_dm (event : Event) : H unit :=
  if negb (bool_decide (ev_channel_type event = Some "im"))
     || truthy_opt (ev_bot_id event)
  then hret tt
  else
    let* user_id := getitem "user" (ev_user event) in
    let* channel_id := getitem "channel" (ev_channel event) in
    let text := default "" (ev_text event) in
    if Py.truthy_str text then
      let* thinking_msg := slack_call (ChatPostMessage channel_id THINKING) in
      let* response := lift (App.ask_claude api user_id text) in
      let* ts := getitem "ts" thinking_msg in
      slack_call (ChatUpdate channel_id ts response) ;;
      hret tt
    else hret tt.

(** [handle_mention] *)
Definition handle_mention (event : Event) : H unit :=
  let* user_id := getitem "user" (ev_user event) in
  let* channel_id := getitem "channel" (ev_channel event) in
  let text := default "" (ev_text event) in
  let message := Py.strip (sub_mentions text) in
  if Py.truthy_str message then
    let* thinking_msg := slack_call (ChatPostMessage channel_id THINKING) in
    let* response := lift (App.ask_claude api user_id message) in
    let* ts := getitem "ts" thinking_msg in
    slack_call (ChatUpdate channel_id ts response) ;;
    hret tt
  else
    slack_call (Say "Hi! How can I help?") ;;
    hret tt.

(** [handle_fileshare] and [handle_file_creation] *)
Definition handle_fileshare (event : Event) : H unit :=
  let* file_id := getitem "file_id" (ev_file_id event) in
  fun p => (Ok tt, {| world := world p; slack_calls := slack_calls p;
                      file_ids := {[file_id]} ∪ file_ids p |}).

Definition handle_file_creation (event : Event) : H unit :=
  let* file_id := getitem "file_id" (ev_file_id event) in
  fun p => (Ok tt, {| world := world p; slack_calls := slack_calls p;
                      file_ids := {[file_id]} ∪ file_ids p |}).

(** [ask_command] *)
Definition ask_command (command : Command) : H unit :=
  slack_call Ack ;;
  let* user_id := getitem "user_id" (cmd_user_id command) in
  let* channel_id := getitem "channel_id" (cmd_channel_id command) in
  let text := Py.strip (default "" (cmd_text command)) in
  if negb (Py.truthy_str text) then
    slack_call (Say "Usage: `/ask-claude [your question]`") ;;
    hret tt
  else
    let* thinking_msg := slack_call (ChatPostMessage channel_id THINKING) in
    let* response := lift (App.ask_claude api user_id text) in
    let* ts := getitem "ts" thinking_msg in
    slack_call (ChatUpdate channel_id ts response) ;;
    hret tt.

(** [reset_command] *)
Definition reset_command (command : Command) : H unit :=
  slack_call Ack ;;
  let* user_id := getitem "user_id" (cmd_user_id command) in
  lift (App.conversations_setitem user_id []) ;;
  slack_call (Say "Conversation reset!") ;;
  hret tt.

End WithCollaborators.

(** A Slack that accepts every call and stamps posted messages. *)
Definition slack_up : list SlackCall -> SlackCall -> Result (option string) :=
  fun calls c =>
    match c with
    | ChatPostMessage _ _ => Ok (Some ("ts" +:+ Py.str_of_nat (length calls)))
    | _ => Ok None
    end.

(** A Slack that refuses every call. *)
Definition slack_down : list SlackCall -> SlackCall -> Result (option string) :=
  fun _ _ => Failed (SlackApiError "not_authed").

Definition process_of (w : World) : Process :=
  {| world := w; slack_calls := []; file_ids := ∅ |}.

Definition dm (user_id text : string) : Event :=
  {| ev_channel_type := Some "im"; ev_bot_id := None;
     ev_user := Some user_id; ev_channel := Some "D1";
     ev_text := Some text; ev_file_id := None |}.

Definition mention (user_id text : string) : Event :=
  {| ev_channel_type := Some "channel"; ev_bot_id := None;
     ev_user := Some user_id; ev_channel := Some "C1";
     ev_text := Some text; ev_file_id := None |}.

Definition slash (user_id text : string) : Command :=
  {| cmd_user_id := Some user_id; cmd_channel_id := Some "C1";
     cmd_text := Some text |}.

End Bolt.

(** ** Facts about the Python built-ins *)

Module PyFacts.

Lemma foldl_snoc {A B} (g : list B -> A -> list B) (f : A -> B) (xs : list A) :
  (forall acc x, g acc x = acc ++ [f x]) ->
  forall acc, foldl g acc xs = acc ++ map f xs.
Proof.
  intros Hg. induction xs as [|x xs IH]; intros acc; simpl.
  - by rewrite app_nil_r.
  - rewrite Hg, IH, <- app_assoc. reflexivity.
Qed.

Lemma map_enumerate {A B} (h : nat -> A -> B) (xs : list A) (start : nat) :
  map (fun p => h p.1 p.2) (Py.enumerate start xs)
  = imap (fun i x => h (start + i) x) xs.
Proof.
  revert start h. induction xs as [|x xs IH]; intros start h; simpl.
  - reflexivity.
  - rewrite Nat.add_0_r. f_equal. rewrite IH.
    apply imap_ext. intros i y _. simpl. f_equal. lia.
Qed.

Lemma dict_mem_get {V} (k : string) (d : Py.dict V) :
  Py.dict_mem k d = bool_decide (is_Some (Py.dict_get k d)).
Proof.
  unfold Py.dict_mem. destruct (Py.dict_get k d) as [v|].
  - symmetry. apply bool_decide_eq_true. eauto.
  - symmetry. apply bool_decide_eq_false. intros [v Hv]. discriminate.
Qed.

Lemma dict_get_set_eq {V} (k : string) (v : V) (d : Py.dict V) :
  Py.dict_get k (Py.dict_set k v d) = Some v.
Proof.
  induction d as [|[k' v'] d IH]; simpl.
  - by rewrite String.eqb_refl.
  - destruct (String.eqb k k') eqn:E; simpl; rewrite E; auto.
Qed.

Lemma dict_get_set_ne {V} (k k' : string) (v : V) (d : Py.dict V) :
  k <> k' -> Py.dict_get k' (Py.dict_set k v d) = Py.dict_get k' d.
Proof.
  intros Hne. induction d as [|[k0 v0] d IH]; simpl.
  - destruct (String.eqb k' k) eqn:E; [|reflexivity].
    apply String.eqb_eq in E. congruence.
  - destruct (String.eqb k k0) eqn:E; simpl.
    + apply String.eqb_eq in E. subst k0.
      destruct (String.eqb k' k) eqn:E'; [|reflexivity].
      apply String.eqb_eq in E'. congruence.
    + by rewrite IH.
Qed.

(** Assigning to a key never removes a key. *)
Lemma dict_set_keeps {V} (k k' : string) (v : V) (d : Py.dict V) :
  is_Some (Py.dict_get k' d) -> is_Some (Py.dict_get k' (Py.dict_set k v d)).
Proof.
  intros H. destruct (decide (k = k')) as [->|Hne].
  - rewrite dict_get_set_eq. eauto.
  - by rewrite dict_get_set_ne.
Qed.

Lemma slice_to_length {A} (n : Z) (l : list A) :
  (0 <= n)%Z -> (Z.of_nat (length (Py.slice_to n l)) <= n)%Z.
Proof.
  intros Hn. unfold Py.slice_to.
  destruct (0 <=? n)%Z eqn:E; [|lia].
  rewrite length_take. lia.
Qed.

Lemma slice_to_nonneg {A} (n : Z) (l : list A) :
  (0 <= n)%Z -> Py.slice_to n l = take (Z.to_nat n) l.
Proof.
  intros Hn. unfold Py.slice_to. destruct (0 <=? n)%Z eqn:E; [reflexivity|lia].
Qed.

Lemma slice_to_nil {A} (n : Z) : Py.slice_to n (@nil A) = [].
Proof. unfold Py.slice_to. destruct (0 <=? n)%Z; apply take_nil. Qed.

Lemma slice_last_length {A} (n : nat) (l : list A) :
  length (Py.slice_last n l) = Nat.min n (length l).
Proof. unfold Py.slice_last. rewrite length_drop. lia. Qed.

Lemma slice_last_suffix {A} (n : nat) (l : list A) :
  Py.slice_last n l `suffix_of` l.
Proof. unfold Py.slice_last. apply suffix_drop. Qed.

Lemma truthy_str_eqb (s : string) :
  Py.truthy_str s = negb (String.eqb s "").
Proof. by destruct s. Qed.

Lemma upper_char_cases (c u l : ascii) :
  ((u, l) = ("N", "n") \/ (u, l) = ("O", "o") \/ (u, l) = ("E", "e"))%char ->
  Ascii.eqb (Py.upper_char c) u = Ascii.eqb c u || Ascii.eqb c l.
Proof.
  intros [[= -> ->] | [[= -> ->] | [= -> ->]]];
    destruct c as [[] [] [] [] [] [] [] []]; vm_compute; reflexivity.
Qed.

(** The source's test for the NONE token agrees with the sixteen casings. *)
Lemma upper_is_none (t : string) :
  String.eqb (Py.upper t) "NONE" = is_none_token t.
Proof.
  destruct t as [|c1 [|c2 [|c3 [|c4 [|c5 t]]]]]; try reflexivity.
  - simpl. destruct (Ascii.eqb (Py.upper_char c1) "N"); reflexivity.
  - simpl. destruct (Ascii.eqb (Py.upper_char c1) "N"); [|reflexivity].
    destruct (Ascii.eqb (Py.upper_char c2) "O"); reflexivity.
  - simpl. destruct (Ascii.eqb (Py.upper_char c1) "N"); [|reflexivity].
    destruct (Ascii.eqb (Py.upper_char c2) "O"); [|reflexivity].
    destruct (Ascii.eqb (Py.upper_char c3) "N"); reflexivity.
  - unfold is_none_token. simpl Py.upper.
    change (String.eqb (String ?a ?s) (String ?b ?s')) with
      (if Ascii.eqb a b then String.eqb s s' else false).
    cbn [String.eqb].
    rewrite !(upper_char_cases _ "N" "n"), !(upper_char_cases _ "O" "o"),
      !(upper_char_cases _ "E" "e") by auto.
    destruct (Ascii.eqb c1 "N" || Ascii.eqb c1 "n"),
      (Ascii.eqb c2 "O" || Ascii.eqb c2 "o"),
      (Ascii.eqb c3 "N" || Ascii.eqb c3 "n"),
      (Ascii.eqb c4 "E" || Ascii.eqb c4 "e"); reflexivity.
  - simpl. 
    destruct (Ascii.eqb (Py.upper_char c1) "N"); [|reflexivity].
    destruct (Ascii.eqb (Py.upper_char c2) "O"); [|reflexivity].
    destruct (Ascii.eqb (Py.upper_char c3) "N"); [|reflexivity].
    destruct (Ascii.eqb (Py.upper_char c4) "E"); reflexivity.
Qed.

End PyFacts.

(** ** Facts about agent.py *)

Module AgentFacts.

Lemma same_generation_refl w : same_generation w w.
Proof. by repeat split. Qed.

Lemma same_generation_trans w1 w2 w3 :
  same_generation w1 w2 -> same_generation w2 w3 -> same_generation w1 w3.
Proof.
  intros (?&?&?) (?&?&?). repeat split; congruence.
Qed.

Ltac run :=
  unfold bind, ret, raise, try_except, get, put, lift_outcome, when,
    get_index, put_index, logger; simpl.

Lemma summary_lines_imap (docs : Py.dict Document) :
  Agent.summary_lines docs
  = imap (fun i kv => Agent.summary_entry (S i) kv.1 kv.2) docs.
Proof.
  unfold Agent.summary_lines, Py.dict_items.
  rewrite (PyFacts.foldl_snoc _ (fun p => Agent.summary_entry p.1 p.2.1 p.2.2)).
  - simpl. apply (PyFacts.map_enumerate (fun i kv => Agent.summary_entry i kv.1 kv.2)).
  - intros acc [i [k d]]. reflexivity.
Qed.

Lemma context_parts_imap (docs : list Document) :
  Agent.context_parts docs = imap (fun i d => Agent.context_part (S i) d) docs.
Proof.
  unfold Agent.context_parts.
  rewrite (PyFacts.foldl_snoc _ (fun p => Agent.context_part p.1 p.2)).
  - simpl. apply (PyFacts.map_enumerate Agent.context_part).
  - intros acc [i d]. reflexivity.
Qed.

Lemma listing_of_memo (ix : DocumentIndex) :
  listing_of {| documents := documents ix; loaded := loaded ix;
                _summaries_cache := listing_of ix |} = listing_of ix.
Proof.
  unfold listing_of at 1. simpl.
  destruct (Py.truthy_str (listing_of ix)) eqn:E; [reflexivity|].
  unfold listing_of in *. destruct (Py.truthy_str (_summaries_cache ix)) eqn:E'.
  - congruence.
  - reflexivity.
Qed.

(** The listing call returns [listing_of] of the index, stores it in the
    cache, and changes nothing else. *)
Lemma get_summaries_run (w : World) :
  exists w',
    Agent.get_summaries_for_selection w = (Return (listing_of (_index w)), w')
    /\ same_generation w w'
    /\ _summaries_cache (_index w') = listing_of (_index w)
    /\ conversations w' = conversations w
    /\ api_calls w' = api_calls w
    /\ log w' = log w.
Proof.
  unfold same_generation, Agent.get_summaries_for_selection, listing_of. run.
  destruct (Py.truthy_str (_summaries_cache (_index w))) eqn:E.
  - exists w. rewrite E. by repeat split.
  - eexists. split; [reflexivity|]. simpl.
    repeat split.
    destruct (Py.truthy_str (Py.join _ _)); reflexivity.
Qed.

(** The lookup raises no [KeyError], leaves the world alone and returns the
    present documents in request order. *)
Lemma get_documents_by_ids_run (ids : list string) (w : World) :
  Agent.get_documents_by_ids ids w
  = (Return (lookup_present (documents (_index w)) ids), w).
Proof.
  induction ids as [|d_id ids IH]; simpl.
  - reflexivity.
  - unfold Agent.documents_getitem, Py.dict_mem. run.
    unfold lookup_present. simpl.
    destruct (Py.dict_get d_id (documents (_index w))) as [doc|] eqn:E;
      simpl; rewrite ?E; simpl; rewrite IH; reflexivity.
Qed.

Lemma stripped_lines_filter (lines : list string) :
  Agent.stripped_lines lines
  = List.filter (fun l => negb (String.eqb l "")) (map Py.strip lines).
Proof.
  induction lines as [|l lines IH]; simpl; [reflexivity|].
  rewrite PyFacts.truthy_str_eqb, IH.
  destruct (negb (String.eqb (Py.strip l) "")); reflexivity.
Qed.

Lemma valid_only_filter (docs : Py.dict Document) (ids : list string) :
  Agent.valid_only docs ids
  = List.filter (fun l => bool_decide (is_Some (Py.dict_get l docs))) ids.
Proof.
  induction ids as [|d ids IH]; simpl; [reflexivity|].
  rewrite PyFacts.dict_mem_get, IH.
  destruct (bool_decide _); reflexivity.
Qed.

(** What the source computes from a response that is not the NONE token is
    what the parsing policy prescribes. *)
Lemma valid_ids_policy (docs : Py.dict Document) (response : string) :
  is_none_token (Py.strip response) = false ->
  Agent.valid_only docs (Agent.stripped_lines (Py.split_lines (Py.strip response)))
  = parsing_policy docs response.
Proof.
  intros Hn. unfold parsing_policy. rewrite Hn.
  by rewrite valid_only_filter, stripped_lines_filter.
Qed.

Lemma filter_length_eq {A} (p : A -> bool) (l : list A) :
  length (List.filter p l) = length l -> List.filter p l = l.
Proof.
  induction l as [|x l IH]; simpl; [reflexivity|].
  destruct (p x); simpl.
  - intros [= H]. f_equal. auto.
  - intros H. pose proof (List.filter_length_le p l). lia.
Qed.

Lemma invalid_ids_unknown (docs : Py.dict Document) (response : string) (x : string) :
  let doc_ids := Agent.stripped_lines (Py.split_lines (Py.strip response)) in
  x ∈ Agent.invalid_ids doc_ids (Agent.valid_only docs doc_ids)
  <-> x ∈ unknown_lines docs response.
Proof.
  simpl. unfold Agent.invalid_ids, unknown_lines.
  rewrite valid_only_filter, stripped_lines_filter.
  set (ls := List.filter _ (map Py.strip _)).
  rewrite !list_elem_of_In.
  split; intros H; apply List.filter_In in H as [Hin Hp];
    apply List.filter_In; (split; [exact Hin|]);
    apply negb_true_iff, bool_decide_eq_false;
    apply negb_true_iff, bool_decide_eq_false in Hp.
  - intros Hk. apply Hp. apply list_elem_of_In, List.filter_In.
    split; [exact Hin|]. by apply bool_decide_eq_true.
  - intros Hk. apply list_elem_of_In, List.filter_In in Hk as [_ Hk].
    by apply bool_decide_eq_true in Hk.
Qed.

Lemma unknown_lines_nil (docs : Py.dict Document) (response : string) :
  let doc_ids := Agent.stripped_lines (Py.split_lines (Py.strip response)) in
  unknown_lines docs response = []
  <-> length (Agent.valid_only docs doc_ids) = length doc_ids.
Proof.
  simpl. unfold unknown_lines.
  rewrite valid_only_filter, stripped_lines_filter.
  set (ls := List.filter _ (map Py.strip _)).
  induction ls as [|l ls IH]; simpl; [tauto|].
  destruct (bool_decide (is_Some (Py.dict_get l docs))); simpl.
  - rewrite IH. lia.
  - split; [discriminate|].
    intros H. pose proof (List.filter_length_le
      (fun l => bool_decide (is_Some (Py.dict_get l docs))) ls). lia.
Qed.

End AgentFacts.

Module SelectorFacts.
Import AgentFacts.

Ltac in_list :=
  repeat first [apply list_elem_of_here | apply list_elem_of_further].

Section WithApi.
Context (api : list Request -> Request -> Outcome Response).

(** On a store that is not loaded or holds no document the selector returns
    at once: one warning, nothing else. *)
Lemma select_idle (query : string) (max_docs : Z) (w : World) :
  loaded (_index w) = false \/ documents (_index w) = [] ->
  Agent.select_relevant_docs api query max_docs w
  = (Return [], add_log NoDocumentsLoaded w).
Proof.
  intros H. unfold Agent.select_relevant_docs. run.
  destruct H as [-> | ->]; simpl; [reflexivity|].
  by rewrite orb_true_r.
Qed.

(** On a loaded, non-empty store the selector sends exactly one request,
    never raises, and returns the policy's selection cut to [max_docs]. *)
Lemma select_run (query : string) (max_docs : Z) (w : World) :
  loaded (_index w) = true -> documents (_index w) <> [] ->
  let docs := documents (_index w) in
  let req := Agent.selector_request query max_docs (listing_of (_index w)) in
  exists ids w' new,
    Agent.select_relevant_docs api query max_docs w = (Return ids, w')
    /\ same_generation w w'
    /\ conversations w' = conversations w
    /\ api_calls w' = api_calls w ++ [req]
    /\ log w' = log w ++ new
    /\ match api (api_calls w) req with
       | Raise e => ids = [] /\ ErrorCallingHaiku e ∈ new
       | Return resp =>
           ids = Py.slice_to max_docs (parsing_policy docs (text resp))
           /\ Forall (fun r => level_of r <> ERROR) new
           /\ (is_none_token (Py.strip (text resp)) = false ->
               unknown_lines docs (text resp) <> [] ->
               exists invalid,
                 IdsNotFound invalid ∈ new
                 /\ forall x, x ∈ invalid <-> x ∈ unknown_lines docs (text resp))
       end.
Proof.
  intros Hl Hd docs req.
  destruct (get_summaries_run w) as (w1 & Hs & Hg & Hc & Hcv & Hcalls & Hlog).
  unfold Agent.select_relevant_docs. run.
  rewrite Hl. simpl.
  destruct (documents (_index w)) as [|kv rest] eqn:Edocs; [done|]. simpl.
  rewrite Hs. simpl.
  unfold Agent.messages_create. simpl. rewrite Hcalls. fold req.
  destruct (api (api_calls w) req) as [resp|e] eqn:Eapi.
  - (* the call succeeded *)
    set (w2 := add_call req (add_log _ w1)).
    destruct Hg as (Hg1 & Hg2 & Hg3).
    assert (Hdocs1 : documents (_index w1) = docs) by (rewrite Hg1; done).
    destruct (0 <? cache_creation_input_tokens resp)%Z;
      destruct (0 <? cache_read_input_tokens resp)%Z; simpl;
      rewrite PyFacts.upper_is_none;
      (destruct (is_none_token (Py.strip (text resp))) eqn:En; simpl;
       [ (* NONE *)
         do 3 eexists; split; [reflexivity|]; simpl;
         (split; [by repeat split|]);
         (split; [done|]); (split; [by rewrite Hcalls|]);
         (split; [rewrite Hlog, <- !app_assoc; reflexivity|]);
         (split; [unfold parsing_policy; cbv zeta; rewrite En;
                  by rewrite PyFacts.slice_to_nil|]);
         (split; [repeat constructor; discriminate|]); intros; discriminate
       | ]).
    all: rewrite Hdocs1.
    all: rewrite (valid_ids_policy docs (text resp) En).
    all: pose proof (unknown_lines_nil docs (text resp)) as Hnil; simpl in Hnil.
    all: rewrite (valid_ids_policy docs (text resp) En) in Hnil.
    all: pose proof (invalid_ids_unknown docs (text resp)) as Hinv; simpl in Hinv.
    all: rewrite (valid_ids_policy docs (text resp) En) in Hinv.
    all: destruct (length (parsing_policy docs (text resp))
                   =? length (Agent.stripped_lines
                                (Py.split_lines (Py.strip (text resp)))))%nat
           eqn:Elen; simpl.
    all: do 3 eexists; split; [reflexivity|]; simpl.
    all: split; [by repeat split|].
    all: split; [done|]. 
    all: split; [by rewrite Hcalls|].
    all: split; [rewrite Hlog, <- !app_assoc; reflexivity|].
    all: split; [reflexivity|].
    all: split; [repeat constructor; discriminate|].
    all: intros _ Hne.
    all: try (apply Nat.eqb_eq in Elen; apply Hnil in Elen; contradiction).
    all: eexists; split; [|exact Hinv].
    all: in_list.
  - (* the call raised *)
    do 3 eexists. split; [reflexivity|]. simpl.
    split; [by destruct Hg as (?&?&?); repeat split|].
    split; [done|]. split; [by rewrite Hcalls|].
    split; [rewrite Hlog, <- !app_assoc; reflexivity|].
    split; [reflexivity|]. in_list.
Qed.

(** Retrieval never raises, keeps the sessions and the generation, and
    only appends to the trace of requests. *)
Lemma retrieve_run (query : string) (max_docs : Z) (w : World) :
  exists docs w' sent,
    Agent.retrieve_documents api query max_docs w = (Return docs, w')
    /\ same_generation w w'
    /\ conversations w' = conversations w
    /\ api_calls w' = api_calls w ++ sent.
Proof.
  unfold Agent.retrieve_documents, Agent.get_documents.
  destruct (loaded (_index w)) eqn:El;
    [destruct (documents (_index w)) as [|kv rest] eqn:Ed|].
  - unfold bind. rewrite select_idle by auto. simpl.
    do 2 eexists. exists []. split; [reflexivity|]. simpl.
    rewrite app_nil_r. by repeat split.
  - destruct (select_run query max_docs w) as (ids & w1 & new & Hs & Hg & Hc & Hcalls & _).
    { done. } { by rewrite Ed. }
    unfold bind. rewrite Hs.
    destruct (Py.truthy_list ids); simpl.
    + rewrite get_documents_by_ids_run. eauto 10.
    + unfold ret. eauto 10.
  - unfold bind. rewrite select_idle by auto. simpl.
    do 2 eexists. exists []. split; [reflexivity|]. simpl.
    rewrite app_nil_r. by repeat split.
Qed.

End WithApi.
End SelectorFacts.

(** ** Facts about loading *)

Module LoadFacts.
Import AgentFacts.

Lemma load_file_run (f : CorpusFile) (w : World) :
  exists w',
    Agent.load_file f w = (Return tt, w')
    /\ documents (_index w') = merge_files [f] (documents (_index w))
    /\ loaded (_index w') = loaded (_index w)
    /\ _summaries_cache (_index w') = _summaries_cache (_index w)
    /\ conversations w' = conversations w
    /\ api_calls w' = api_calls w.
Proof.
  unfold Agent.load_file, merge_files. run.
  destruct (file_json f) as [j|e]; simpl; eexists; (split; [reflexivity|]);
    simpl; by repeat split.
Qed.

Lemma merge_files_cons (f : CorpusFile) (files : list CorpusFile)
  (docs : Py.dict Document) :
  merge_files (f :: files) docs = merge_files files (merge_files [f] docs).
Proof. reflexivity. Qed.

Lemma load_loop_run (files : list CorpusFile) (w : World) :
  exists w',
    for_each files Agent.load_file w = (Return tt, w')
    /\ documents (_index w') = merge_files files (documents (_index w))
    /\ loaded (_index w') = loaded (_index w)
    /\ _summaries_cache (_index w') = _summaries_cache (_index w)
    /\ conversations w' = conversations w
    /\ api_calls w' = api_calls w.
Proof.
  revert w. induction files as [|f files IH]; intros w.
  - exists w. by repeat split.
  - destruct (load_file_run f w) as (w1 & H1 & Hd1 & Hl1 & Hc1 & Hv1 & Ha1).
    destruct (IH w1) as (w2 & H2 & Hd2 & Hl2 & Hc2 & Hv2 & Ha2).
    exists w2. rewrite merge_files_cons, <- Hd1.
    cbn [for_each]. unfold bind. rewrite H1, H2.
    repeat split; congruence.
Qed.

(** Loading a directory that does not exist only logs a warning. *)
Lemma load_missing (fs : string -> option (list CorpusFile))
  (directory : string) (w : World) :
  fs directory = None ->
  Agent.load_from_directory fs directory w
  = (Return tt, add_log (DirectoryNotFound directory) w).
Proof. intros H. unfold Agent.load_from_directory. by rewrite H. Qed.

(** Loading a directory that exists merges its files into the corpus, sets
    the flag and empties the cache. *)
Lemma load_run (fs : string -> option (list CorpusFile))
  (directory : string) (files : list CorpusFile) (w : World) :
  fs directory = Some files ->
  exists w',
    Agent.load_from_directory fs directory w = (Return tt, w')
    /\ documents (_index w') = merge_files files (documents (_index w))
    /\ loaded (_index w') = true
    /\ _summaries_cache (_index w') = ""
    /\ conversations w' = conversations w
    /\ api_calls w' = api_calls w.
Proof.
  intros H. unfold Agent.load_from_directory. rewrite H.
  destruct (load_loop_run files w) as (w1 & H1 & Hd1 & Hl1 & Hc1 & Hv1 & Ha1).
  unfold bind. rewrite H1. run.
  eexists. split; [reflexivity|]. simpl. by repeat split.
Qed.

Lemma merge_untouched (files : list CorpusFile) (docs : Py.dict Document)
  (k : string) :
  k ∉ parsed_stems files ->
  Py.dict_get k (merge_files files docs) = Py.dict_get k docs.
Proof.
  revert docs. induction files as [|f files IH]; intros docs Hk.
  - reflexivity.
  - rewrite merge_files_cons. unfold parsed_stems in *. simpl in Hk.
    unfold merge_files at 2. simpl.
    destruct (file_json f) as [j|e]; simpl in *.
    + apply not_elem_of_cons in Hk as [Hne Hk].
      rewrite IH by exact Hk. apply PyFacts.dict_get_set_ne. congruence.
    + by apply IH.
Qed.

Lemma merge_replaced (files : list CorpusFile) (docs : Py.dict Document)
  (k : string) :
  k ∈ parsed_stems files ->
  exists f j,
    f ∈ files /\ file_stem f = k /\ file_json f = Return j
    /\ Py.dict_get k (merge_files files docs)
       = Some (Agent.make_document k (file_path f) j).
Proof.
  revert docs. induction files as [|f files IH]; intros docs Hk.
  - unfold parsed_stems in Hk. simpl in Hk. by apply elem_of_nil in Hk.
  - rewrite merge_files_cons.
    destruct (decide (k ∈ parsed_stems files)) as [Hin|Hout].
    + destruct (IH (merge_files [f] docs) Hin) as (f' & j & Hf & Hs & Hj & Hg).
      exists f', j. split; [by apply list_elem_of_further|done].
    + rewrite merge_untouched by exact Hout.
      unfold parsed_stems in Hk, Hout. simpl in Hk.
      unfold merge_files. simpl.
      destruct (file_json f) as [j|e] eqn:Ej; simpl in Hk.
      * apply elem_of_cons in Hk as [->|Hk]; [|contradiction].
        exists f, j. split; [apply list_elem_of_here|].
        repeat split; [done|]. apply PyFacts.dict_get_set_eq.
      * contradiction.
Qed.

Lemma merge_keeps (files : list CorpusFile) (docs : Py.dict Document)
  (k : string) :
  is_Some (Py.dict_get k docs) -> is_Some (Py.dict_get k (merge_files files docs)).
Proof.
  intros H. destruct (decide (k ∈ parsed_stems files)) as [Hin|Hout].
  - destruct (merge_replaced files docs k Hin) as (f & j & _ & _ & _ & ->). eauto.
  - by rewrite merge_untouched.
Qed.

End LoadFacts.

(** ** Facts about app.py *)

Module AppFacts.
Import AgentFacts SelectorFacts.

Section WithApi.
Context (api : list Request -> Request -> Outcome Response).

(** One call of [ask_claude], start to end: it never raises; the last
    request it sends is the generation request, carrying [sent_history]; the
    session afterwards is that history, followed by the reply when the
    request succeeded. *)
Lemma ask_claude_run (user_id message : string) (w : World) :
  exists reply w' prior req,
    App.ask_claude api user_id message w = (Return reply, w')
    /\ api_calls w' = prior ++ [req]
    /\ messages req = sent_history user_id message w
    /\ same_generation w w'
    /\ (forall u, u <> user_id -> conversations w' !! u = conversations w !! u)
    /\ match api prior req with
       | Return resp =>
           reply = text resp
           /\ conversations w' !! user_id
              = Some (sent_history user_id message w
                      ++ [{| role := assistant; content := text resp |}])
       | Raise e =>
           reply = "API error: " +:+ exn_str e
           /\ conversations w' !! user_id = Some (sent_history user_id message w)
           /\ ClaudeAPIError e ∈ log w'
       end.
Proof.
  unfold App.ask_claude, sent_history, session.
  (* the lazily created session *)
  set (w0 := match conversations w !! user_id with
             | Some _ => w
             | None => set_conversations (<[user_id := []]> (conversations w)) w
             end).
  assert (H0 : conversations w0 !! user_id
               = Some (default [] (conversations w !! user_id))).
  { unfold w0. destruct (conversations w !! user_id) eqn:E; simpl.
    - exact E. - apply lookup_insert_eq. }
  assert (H0' : forall u, u <> user_id ->
                          conversations w0 !! u = conversations w !! u).
  { intros u Hu. unfold w0. destruct (conversations w !! user_id); simpl.
    - done. - by apply lookup_insert_ne. }
  assert (G0 : same_generation w w0 /\ api_calls w0 = api_calls w).
  { unfold w0. destruct (conversations w !! user_id); by repeat split. }
  destruct (retrieve_run api message 3 w0)
    as (docs & w1 & sent & Hr & Hg1 & Hc1 & Ha1).
  set (hist := Py.slice_last 10 (default [] (conversations w !! user_id)
                                 ++ [{| role := user; content := message |}])).
  assert (Hstart :
    when (negb (bool_decide (is_Some (conversations w !! user_id))))
         (App.conversations_setitem user_id []) w = (Return tt, w0)).
  { unfold w0, App.conversations_setitem. run.
    destruct (conversations w !! user_id) eqn:E; reflexivity. }
  unfold bind at 1, get. cbv beta iota.
  unfold bind at 1. rewrite Hstart. cbv beta iota.
  unfold bind at 1. rewrite Hr. cbv beta iota.
  (* the system prompt *)
  set (prompt := if Py.truthy_list docs
                 then App.SYSTEM_PROMPT_WITH_CONTEXT
                        (Agent.format_context_for_claude docs)
                 else App.SYSTEM_PROMPT).
  set (w2 := if Py.truthy_list docs
             then add_log (AddedDocuments (length docs)) w1 else w1).
  assert (H2 : conversations w2 = conversations w1 /\ api_calls w2 = api_calls w1
               /\ _index w2 = _index w1).
  { unfold w2. destruct (Py.truthy_list docs); by repeat split. }
  destruct H2 as (Hc2 & Ha2 & Hi2).
  assert (Hprompt :
    (if Py.truthy_list docs
     then logger (AddedDocuments (length docs));;
          ret (App.SYSTEM_PROMPT_WITH_CONTEXT
                 (Agent.format_context_for_claude docs))
     else ret App.SYSTEM_PROMPT) w1 = (Return prompt, w2)).
  { unfold prompt, w2. destruct (Py.truthy_list docs); reflexivity. }
  unfold bind at 1. rewrite Hprompt. cbv beta iota.
  unfold App.conversations_append, App.conversations_getitem,
    App.conversations_setitem, Agent.messages_create.
  run. rewrite Hc2, Hc1, H0. simpl.
  rewrite lookup_insert_eq. simpl.
  rewrite lookup_insert_eq. simpl.
  rewrite Ha2, Ha1. fold hist.
  set (req := {| model := App.CLAUDE_MODEL; max_tokens := 2048;
                 system := SystemText prompt; messages := hist |}).
  assert (Hgen : same_generation w w2).
  { destruct G0 as [G0 _]. apply (same_generation_trans _ _ _ G0).
    destruct Hg1 as (?&?&?). unfold same_generation. rewrite Hi2. done. }
  exists (match api (api_calls w0 ++ sent) req with
          | Return resp => text resp
          | Raise e => "API error: " +:+ exn_str e
          end).
  destruct (api (api_calls w0 ++ sent) req) as [resp|e] eqn:Eapi; simpl.
  - rewrite lookup_insert_eq. simpl.
    eexists. exists (api_calls w0 ++ sent), req.
    split; [reflexivity|]. simpl.
    split; [by rewrite Ha2, Ha1|]. split; [done|].
    split; [destruct Hgen as (?&?&?); by repeat split|].
    split.
    { intros u Hu. rewrite !lookup_insert_ne by done.
      rewrite Hc2, Hc1. by apply H0'. }
    rewrite Eapi. split; [done|]. by rewrite lookup_insert_eq.
  - eexists. exists (api_calls w0 ++ sent), req.
    split; [reflexivity|]. simpl.
    split; [by rewrite Ha2, Ha1|]. split; [done|].
    split; [destruct Hgen as (?&?&?); by repeat split|].
    split.
    { intros u Hu. rewrite !lookup_insert_ne by done.
      rewrite Hc2, Hc1. by apply H0'. }
    rewrite Eapi. split; [done|]. split; [by rewrite lookup_insert_eq|].
    apply list_elem_of_In, List.in_or_app. right. by left.
Qed.

End WithApi.
End AppFacts.

(** ** Load generations *)

Module GenerationFacts.
Import AgentFacts SelectorFacts AppFacts.

Section WithCollaborators.
Context (api : list Request -> Request -> Outcome Response).
Context (fs : string -> option (list CorpusFile)).

Lemma select_same_generation (query : string) (max_docs : Z) (w : World) :
  same_generation w (Agent.select_relevant_docs api query max_docs w).2.
Proof.
  destruct (loaded (_index w)) eqn:El;
    [destruct (documents (_index w)) as [|kv rest] eqn:Ed|].
  - rewrite select_idle by auto. by repeat split.
  - destruct (select_run api query max_docs w)
      as (ids & w1 & new & -> & Hg & _); [done|by rewrite Ed|exact Hg].
  - rewrite select_idle by auto. by repeat split.
Qed.

(** Every operation other than a load stays within the generation. *)
Lemma run_op_same_generation (op : Op) (w : World) :
  is_load op = false -> same_generation w (run_op api fs op w).
Proof.
  destruct op; simpl; intros Hop; try discriminate.
  - destruct (get_summaries_run w) as (w' & -> & Hg & _). exact Hg.
  - unfold Agent.estimate_summary_tokens, bind.
    destruct (get_summaries_run w) as (w' & -> & Hg & _). exact Hg.
  - unfold Agent.get_documents. rewrite get_documents_by_ids_run.
    apply same_generation_refl.
  - apply select_same_generation.
  - destruct (retrieve_run api query max_docs w) as (? & ? & ? & -> & Hg & _).
    exact Hg.
  - destruct (ask_claude_run api user_id message w)
      as (? & ? & ? & ? & -> & _ & _ & Hg & _). exact Hg.
  - by repeat split.
Qed.

Lemma run_ops_same_generation (ops : list Op) (w : World) :
  Forall (fun op => is_load op = false) ops ->
  same_generation w (run_ops api fs ops w).
Proof.
  intros H. revert w. induction H as [|op ops Hop _ IH]; intros w.
  - apply same_generation_refl.
  - simpl. eapply same_generation_trans; [|apply IH].
    by apply run_op_same_generation.
Qed.

End WithCollaborators.
End GenerationFacts.

(** ** Sessions *)

Module SessionFacts.
Import AppFacts.

Lemma sent_history_length (user_id message : string) (w : World) :
  length (sent_history user_id message w)
  = Nat.min 10 (S (length (session user_id w))).
Proof.
  unfold sent_history. rewrite PyFacts.slice_last_length, length_app.
  cbn [length]. lia.
Qed.

(** The user turn is appended and the session cut before the request is
    sent: the request never carries more than ten turns and ends with the
    new user turn. *)
Lemma sent_history_bounded (user_id message : string) (w : World) :
  length (sent_history user_id message w) <= 10
  /\ last (sent_history user_id message w)
     = Some {| role := user; content := message |}.
Proof.
  split; [rewrite sent_history_length; lia|].
  unfold sent_history, Py.slice_last.
  set (l := session user_id w).
  rewrite length_app. simpl.
  destruct (decide (length l + 1 <= 10)) as [Hle|Hgt].
  - replace (length l + 1 - 10) with 0 by lia. simpl. apply last_snoc.
  - rewrite drop_app_le by lia. apply last_snoc.
Qed.

(** After a call whose generation request succeeded the session is one turn
    longer than what was sent: eleven turns from the tenth turn on. *)
Lemma session_after_reply (api : list Request -> Request -> Outcome Response)
  (user_id message : string) (w : World) :
  let r := App.ask_claude api user_id message w in
  forall prior req resp,
    api_calls r.2 = prior ++ [req] ->
    api prior req = Return resp ->
    length (session user_id r.2)
    = S (Nat.min 10 (S (length (session user_id w)))).
Proof.
  intros r prior req resp Hcalls Hapi. subst r.
  destruct (ask_claude_run api user_id message w)
    as (reply & w' & prior' & req' & Hrun & Hc & _ & _ & _ & Hm).
  rewrite Hrun in Hcalls |- *. cbn [snd] in Hcalls |- *.
  rewrite Hc in Hcalls. apply app_inj_tail in Hcalls as [-> ->].
  rewrite Hapi in Hm. destruct Hm as [_ Hs].
  unfold session at 1. rewrite Hs. cbn -[Nat.min sent_history].
  rewrite length_app, sent_history_length. cbn [length]. lia.
Qed.

End SessionFacts.

(** ** The properties of the design document *)

Import AgentFacts SelectorFacts LoadFacts AppFacts GenerationFacts SessionFacts.

(** C1. The session is cut to its last ten turns after the user turn only;
    the assistant turn is appended after the cut.  Six successful exchanges
    of one user on a fresh process append twelve turns and leave eleven of
    them in the session (everything but the first user turn), not the ten
    most recent. *)
Theorem C1_twelve_turns_leave_eleven :
  let w := ask_n Sample.api_echo "U1" Sample.message 1 6 initial_world in
  session "U1" w
  = [ Sample.turn assistant "re: m1";
      Sample.turn user "m2"; Sample.turn assistant "re: m2";
      Sample.turn user "m3"; Sample.turn assistant "re: m3";
      Sample.turn user "m4"; Sample.turn assistant "re: m4";
      Sample.turn user "m5"; Sample.turn assistant "re: m5";
      Sample.turn user "m6"; Sample.turn assistant "re: m6" ]
  /\ length (session "U1" w) = 11
  /\ length (api_calls w) = 6.
Proof. vm_compute. repeat split. Qed.

(** C2 as stated fails: with the hosted model unreachable, the first message
    of a user stays in that user's session. *)
Lemma C2_failed_turn_is_recorded :
  ~ (forall api user_id message w reply w' prior req e,
        App.ask_claude api user_id message w = (reply, w') ->
        api_calls w' = prior ++ [req] ->
        api prior req = Raise e ->
        session user_id w' = session user_id w
        /\ exists s, reply = Return s).
Proof.
  intros H.
  pose (r := App.ask_claude Sample.api_down "U1" "hi" initial_world).
  destruct (H Sample.api_down "U1" "hi" initial_world r.1 r.2 []
              (Sample.bare_request [Sample.turn user "hi"])
              (APIError "Connection error.")) as [Hs _].
  - subst r. apply surjective_pairing.
  - vm_compute. reflexivity.
  - reflexivity.
  - vm_compute in Hs. discriminate Hs.
Qed.

(** C2, amended.  When the generation request of a call fails, [ask_claude]
    does not raise: it returns the text [API error: ] followed by the
    error.  No assistant turn is appended, but the user turn of the failed
    call stays: the session is the former session with that turn appended,
    cut to its last ten turns.  The sessions of other users are untouched. *)
Theorem C2_failed_generation_keeps_user_turn
  (api : list Request -> Request -> Outcome Response)
  (user_id message : string) (w : World)
  (reply : Outcome string) (w' : World)
  (prior : list Request) (req : Request) (e : Exn) :
  App.ask_claude api user_id message w = (reply, w') ->
  api_calls w' = prior ++ [req] ->
  api prior req = Raise e ->
  reply = Return ("API error: " +:+ exn_str e)
  /\ session user_id w'
     = Py.slice_last 10 (session user_id w
                         ++ [{| role := user; content := message |}])
  /\ ClaudeAPIError e ∈ log w'
  /\ forall u, u <> user_id -> session u w' = session u w.
Proof.
  intros Hrun Hcalls Hapi.
  destruct (ask_claude_run api user_id message w)
    as (reply0 & w0 & prior0 & req0 & Hrun0 & Hc0 & _ & _ & Hothers & Hm).
  rewrite Hrun0 in Hrun. injection Hrun as <- <-.
  rewrite Hc0 in Hcalls. apply app_inj_tail in Hcalls as [-> ->].
  rewrite Hapi in Hm. destruct Hm as (-> & Hs & Hlog).
  split; [reflexivity|]. split.
  - unfold session at 1. rewrite Hs. reflexivity.
  - split; [exact Hlog|]. intros u Hu. unfold session. by rewrite Hothers.
Qed.

Lemma C2_failed_generation_keeps_user_turn_witness :
  let r := App.ask_claude Sample.api_down "U1" "hi" initial_world in
  r.1 = Return ("API error: " +:+ exn_str (APIError "Connection error."))
  /\ session "U1" r.2
     = Py.slice_last 10 (session "U1" initial_world
                         ++ [{| role := user; content := "hi" |}])
  /\ ClaudeAPIError (APIError "Connection error.") ∈ log r.2
  /\ forall u, u <> "U1" -> session u r.2 = session u initial_world.
Proof.
  intros r.
  apply (C2_failed_generation_keeps_user_turn Sample.api_down "U1" "hi"
           initial_world r.1 r.2 []
           (Sample.bare_request [Sample.turn user "hi"])
           (APIError "Connection error.")).
  - subst r. apply surjective_pairing.
  - vm_compute. reflexivity.
  - reflexivity.
Defined.

(** C3 as stated fails: on a loaded store with a cached listing, loading a
    directory that does not exist leaves the documents, the flag and the
    cached listing in place. *)
Lemma C3_missing_directory_keeps_state :
  ~ (forall fs directory w,
        fs directory = None ->
        let w' := (Agent.load_from_directory fs directory w).2 in
        documents (_index w') = []
        /\ loaded (_index w') = false
        /\ _summaries_cache (_index w') = "").
Proof.
  intros H.
  destruct (H Sample.fs_more "nowhere" (Sample.world_abc "cached listing"))
    as (Hd & _); [reflexivity|].
  discriminate Hd.
Qed.

(** C3, amended.  Loading a directory that does not exist is a no-op: it
    logs one warning and leaves the documents, the loaded flag and the
    cached listing exactly as they were; on a fresh store that means an
    empty store, not loaded, with no cached listing. *)
Theorem C3_missing_directory_is_noop
  (fs : string -> option (list CorpusFile)) (directory : string) (w : World) :
  fs directory = None ->
  let r := Agent.load_from_directory fs directory w in
  r.1 = Return tt
  /\ _index r.2 = _index w
  /\ conversations r.2 = conversations w
  /\ api_calls r.2 = api_calls w
  /\ log r.2 = log w ++ [DirectoryNotFound directory]
  /\ (_index w = new_index ->
      documents (_index r.2) = []
      /\ loaded (_index r.2) = false
      /\ _summaries_cache (_index r.2) = "").
Proof.
  intros H r. subst r. rewrite (load_missing fs directory w H). simpl.
  do 5 (split; [reflexivity|]). intros Hw. rewrite Hw. by repeat split.
Qed.

Lemma C3_missing_directory_is_noop_witness :
  let r := Agent.load_from_directory Sample.fs_more "nowhere" initial_world in
  r.1 = Return tt
  /\ _index r.2 = _index initial_world
  /\ conversations r.2 = conversations initial_world
  /\ api_calls r.2 = api_calls initial_world
  /\ log r.2 = log initial_world ++ [DirectoryNotFound "nowhere"]
  /\ (_index initial_world = new_index ->
      documents (_index r.2) = []
      /\ loaded (_index r.2) = false
      /\ _summaries_cache (_index r.2) = "").
Proof.
  apply (C3_missing_directory_is_noop Sample.fs_more "nowhere" initial_world).
  reflexivity.
Defined.

(** C4.  For every count [max_docs] (an integer that is not negative),
    every query and every response the selector returns at most [max_docs]
    identifiers, and what it returns from a successful call is the first
    [max_docs] of the lines that survived the filter to known ids: the cut
    comes after the filter, never before. *)
Theorem C4_truncation_after_filtering
  (api : list Request -> Request -> Outcome Response)
  (query : string) (max_docs : Z) (w : World) :
  (0 <= max_docs)%Z ->
  let docs := documents (_index w) in
  let req := Agent.selector_request query max_docs (listing_of (_index w)) in
  exists ids w',
    Agent.select_relevant_docs api query max_docs w = (Return ids, w')
    /\ (Z.of_nat (length ids) <= max_docs)%Z
    /\ ids = if loaded (_index w) && negb (Py.dict_len docs =? 0)%nat
             then match api (api_calls w) req with
                  | Return resp =>
                      take (Z.to_nat max_docs) (parsing_policy docs (text resp))
                  | Raise _ => []
                  end
             else [].
Proof.
  intros Hn. cbv zeta.
  set (req := Agent.selector_request query max_docs (listing_of (_index w))).
  destruct (loaded (_index w)) eqn:El;
    [destruct (Py.dict_len (documents (_index w)) =? 0)%nat eqn:Ed|].
  - apply Nat.eqb_eq, length_zero_iff_nil in Ed.
    rewrite select_idle by auto. simpl.
    do 2 eexists. split; [reflexivity|]. split; [simpl; lia|reflexivity].
  - destruct (select_run api query max_docs w)
      as (ids & w1 & new & Hs & _ & _ & _ & _ & Hm); [done| |].
    { intros Hd. rewrite Hd in Ed. discriminate Ed. }
    exists ids, w1. split; [exact Hs|]. fold req in Hm. simpl.
    destruct (api (api_calls w) req) as [resp|e].
    + destruct Hm as (-> & _). rewrite PyFacts.slice_to_nonneg by exact Hn.
      split; [|reflexivity]. rewrite length_take. lia.
    + destruct Hm as (-> & _). split; [simpl; lia|reflexivity].
  - rewrite select_idle by auto. simpl.
    do 2 eexists. split; [reflexivity|]. split; [simpl; lia|reflexivity].
Qed.

Lemma C4_truncation_after_filtering_witness :
  exists ids w',
    Agent.select_relevant_docs (Sample.api_fixed Sample.noisy_ids) "refund" 2
      (Sample.world_abc "") = (Return ids, w')
    /\ (Z.of_nat (length ids) <= 2)%Z
    /\ ids = ["a"; "b"].
Proof.
  destruct (C4_truncation_after_filtering (Sample.api_fixed Sample.noisy_ids)
              "refund" 2 (Sample.world_abc "")) as (ids & w' & Hs & Hl & Hi);
    [lia|].
  exists ids, w'. split; [exact Hs|]. split; [exact Hl|].
  rewrite Hi. vm_compute. reflexivity.
Defined.

(** With [max_docs = 2] and the response [zz / (blank) / a / b / c] the two
    ids returned are [a] and [b]; cutting the lines to two before the filter
    would have kept nothing. *)
Example filter_then_cut :
  (Agent.select_relevant_docs (Sample.api_fixed Sample.noisy_ids) "refund" 2
     (Sample.world_abc "")).1 = Return ["a"; "b"]
  /\ Agent.valid_only (documents (Sample.index_abc ""))
       (take 2 (Agent.stripped_lines
                  (Py.split_lines (Py.strip Sample.noisy_ids)))) = ["a"].
Proof. vm_compute. split; reflexivity. Qed.

(** C5.  On a loaded, non-empty store and for every response text of a
    successful selector call, the selection follows the parsing policy: the
    text is trimmed; the token NONE in any casing gives the empty
    selection; otherwise the text is split on newlines, each line trimmed,
    empty lines dropped and the lines that are ids of the index kept in
    response order (then cut to [max_docs]).  Unknown ids are not an error:
    the call returns normally, logs no record at level ERROR, and logs one
    warning naming the discarded lines. *)
Theorem C5_selection_follows_parsing_policy
  (api : list Request -> Request -> Outcome Response)
  (query : string) (max_docs : Z) (w : World) (resp : Response) :
  loaded (_index w) = true ->
  documents (_index w) <> [] ->
  api (api_calls w)
      (Agent.selector_request query max_docs (listing_of (_index w)))
  = Return resp ->
  let docs := documents (_index w) in
  let kept := parsing_policy docs (text resp) in
  exists w' new,
    Agent.select_relevant_docs api query max_docs w
    = (Return (Py.slice_to max_docs kept), w')
    /\ (is_none_token (Py.strip (text resp)) = true -> kept = [])
    /\ ((Z.of_nat (length kept) <= max_docs)%Z -> Py.slice_to max_docs kept = kept)
    /\ log w' = log w ++ new
    /\ Forall (fun r => level_of r <> ERROR) new
    /\ (is_none_token (Py.strip (text resp)) = false ->
        unknown_lines docs (text resp) <> [] ->
        exists invalid,
          IdsNotFound invalid ∈ new
          /\ level_of (IdsNotFound invalid) = WARNING
          /\ forall x, x ∈ invalid <-> x ∈ unknown_lines docs (text resp)).
Proof.
  intros Hl Hd Hapi docs kept.
  destruct (select_run api query max_docs w Hl Hd)
    as (ids & w' & new & Hs & _ & _ & _ & Hlog & Hm).
  rewrite Hapi in Hm. destruct Hm as (-> & Hlevels & Hwarn).
  exists w', new. split; [exact Hs|]. split.
  { intros Hn. unfold kept, parsing_policy. cbv zeta. by rewrite Hn. }
  split.
  { intros Hk. unfold Py.slice_to.
    destruct (0 <=? max_docs)%Z eqn:E; [apply take_ge; lia|].
    apply Z.leb_gt in E. lia. }
  split; [exact Hlog|]. split; [exact Hlevels|].
  intros Hn Hu. destruct (Hwarn Hn Hu) as (invalid & Hin & Hset).
  exists invalid. split; [exact Hin|]. split; [reflexivity|exact Hset].
Qed.

Lemma C5_selection_follows_parsing_policy_witness :
  exists w' new,
    Agent.select_relevant_docs (Sample.api_fixed Sample.noisy_ids) "refund" 3
      (Sample.world_abc "")
    = (Return ["a"; "b"; "c"], w')
    /\ log w' = log (Sample.world_abc "") ++ new
    /\ IdsNotFound ["zz"] ∈ new.
Proof.
  destruct (C5_selection_follows_parsing_policy
              (Sample.api_fixed Sample.noisy_ids) "refund" 3
              (Sample.world_abc "")
              {| text := Sample.noisy_ids;
                 cache_creation_input_tokens := 0;
                 cache_read_input_tokens := 0 |})
    as (w' & new & Hs & _ & _ & Hlog & _ & _);
    [reflexivity | discriminate | reflexivity |].
  exists w', new. split; [exact Hs|]. split; [exact Hlog|].
  assert (Hw : w' = (Agent.select_relevant_docs
                       (Sample.api_fixed Sample.noisy_ids) "refund" 3
                       (Sample.world_abc "")).2) by (by rewrite Hs).
  rewrite Hw in Hlog. vm_compute in Hlog. subst new.
  do 2 apply list_elem_of_further. apply list_elem_of_here.
Defined.

(** C6.  When the loaded flag is false or the store holds no document, the
    selector returns the empty selection and sends no request to the hosted
    model: the trace of requests, the index and the sessions are unchanged
    and the only effect is one logged warning. *)
Theorem C6_empty_store_selects_nothing
  (api : list Request -> Request -> Outcome Response)
  (query : string) (max_docs : Z) (w : World) :
  loaded (_index w) = false \/ Py.dict_len (documents (_index w)) = 0 ->
  let r := Agent.select_relevant_docs api query max_docs w in
  r.1 = Return []
  /\ api_calls r.2 = api_calls w
  /\ _index r.2 = _index w
  /\ conversations r.2 = conversations w
  /\ log r.2 = log w ++ [NoDocumentsLoaded].
Proof.
  intros H r. subst r. rewrite select_idle.
  - by repeat split.
  - destruct H as [H|H]; [by left|right].
    by apply length_zero_iff_nil in H.
Qed.

Lemma C6_empty_store_selects_nothing_witness :
  let r := Agent.select_relevant_docs Sample.api_echo "refund" 3 initial_world in
  r.1 = Return []
  /\ api_calls r.2 = api_calls initial_world
  /\ _index r.2 = _index initial_world
  /\ conversations r.2 = conversations initial_world
  /\ log r.2 = log initial_world ++ [NoDocumentsLoaded].
Proof.
  apply (C6_empty_store_selects_nothing Sample.api_echo "refund" 3 initial_world).
  left. reflexivity.
Defined.

(** C7.  Within one load generation the listing is stable: whatever
    operations other than a load run between two calls of the listing, both
    calls return the same string; the first call stores that string in the
    cache. *)
Theorem C7_listing_stable_within_generation
  (api : list Request -> Request -> Outcome Response)
  (fs : string -> option (list CorpusFile))
  (ops : list Op) (w : World) :
  Forall (fun op => is_load op = false) ops ->
  let first := Agent.get_summaries_for_selection w in
  let later := Agent.get_summaries_for_selection (run_ops api fs ops first.2) in
  later.1 = first.1
  /\ first.1 = Return (_summaries_cache (_index first.2)).
Proof.
  intros Hops first later. subst first later.
  destruct (get_summaries_run w) as (w1 & H1 & Hg1 & Hc1 & _).
  rewrite H1. cbn [fst snd].
  destruct (get_summaries_run (run_ops api fs ops w1)) as (w2 & H2 & _).
  rewrite H2. cbn [fst snd].
  destruct (run_ops_same_generation api fs ops w1 Hops) as (_ & _ & Hl).
  destruct Hg1 as (_ & _ & Hl1).
  split; [|by rewrite Hc1]. by rewrite Hl, Hl1.
Qed.

Lemma C7_listing_stable_within_generation_witness :
  let ops := [OpSelect "refund" 2; OpLookup ["a"; "zz"]; OpListing;
              OpAsk "U1" "hi"; OpReset "U1"; OpEstimate] in
  let first := Agent.get_summaries_for_selection (Sample.world_abc "") in
  let later := Agent.get_summaries_for_selection
                 (run_ops Sample.api_echo Sample.fs_more ops first.2) in
  later.1 = first.1
  /\ first.1 = Return (_summaries_cache (_index first.2)).
Proof.
  apply (C7_listing_stable_within_generation Sample.api_echo Sample.fs_more).
  repeat constructor.
Defined.

(** C8.  The lookup never fails and changes nothing; it returns, for the
    requested ids in request order, the documents stored under the ids that
    are present, and nothing for the ids that are absent. *)
Theorem C8_lookup_returns_present_in_order (ids : list string) (w : World) :
  let docs := documents (_index w) in
  Agent.get_documents_by_ids ids w = (Return (lookup_present docs ids), w)
  /\ lookup_present docs [] = []
  /\ (forall d_id rest,
        lookup_present docs (d_id :: rest)
        = match Py.dict_get d_id docs with
          | Some doc => doc :: lookup_present docs rest
          | None => lookup_present docs rest
          end)
  /\ (forall doc, doc ∈ lookup_present docs ids
                  <-> exists d_id, d_id ∈ ids /\ Py.dict_get d_id docs = Some doc)
  /\ length (lookup_present docs ids)
     = length (List.filter (fun d_id => Py.dict_mem d_id docs) ids).
Proof.
  intros docs. split; [apply get_documents_by_ids_run|].
  split; [reflexivity|]. split.
  { intros d_id rest. unfold lookup_present. simpl.
    destruct (Py.dict_get d_id docs); reflexivity. }
  split.
  { intros doc. unfold lookup_present. apply list_elem_of_omap. }
  unfold lookup_present. induction ids as [|d_id ids IH]; [reflexivity|].
  cbn in IH |- *. unfold Py.dict_mem at 1.
  destruct (Py.dict_get d_id docs); cbn; [f_equal|]; exact IH.
Qed.

(** C9.  The context of no document is the empty string.  The context of a
    non-empty sequence is, for each document in order, one block with its
    1-based position, title, category and article, the blocks joined by two
    newlines; one document gives the single block numbered 1. *)
Theorem C9_context_is_numbered_blocks :
  Agent.format_context_for_claude [] = ""
  /\ (forall doc, Agent.format_context_for_claude [doc] = context_block 1 doc)
  /\ (forall doc docs,
        Agent.format_context_for_claude (doc :: docs)
        = Py.join (Py.LF +:+ Py.LF)
                  (imap (fun i d => context_block (S i) d) (doc :: docs)))
  /\ (forall docs, length (Agent.context_parts docs) = length docs)
  /\ Py.str_of_nat 1 = "1".
Proof.
  split; [reflexivity|]. split; [reflexivity|]. split.
  { intros doc docs. unfold Agent.format_context_for_claude.
    cbn [Py.truthy_list negb]. by rewrite context_parts_imap. }
  split; [|reflexivity].
  intros docs. by rewrite context_parts_imap, length_imap.
Qed.

(** C10.  Loading an existing directory never clears the corpus: a document
    present before the call is still present afterwards, unchanged unless a
    file of the directory that parses has its id as stem, in which case the
    document made from such a file has replaced it. *)
Theorem C10_load_merges_into_corpus
  (fs : string -> option (list CorpusFile))
  (directory : string) (files : list CorpusFile) (w : World)
  (k : string) (doc : Document) :
  fs directory = Some files ->
  Py.dict_get k (documents (_index w)) = Some doc ->
  let r := Agent.load_from_directory fs directory w in
  let docs' := documents (_index r.2) in
  r.1 = Return tt
  /\ is_Some (Py.dict_get k docs')
  /\ (k ∉ parsed_stems files -> Py.dict_get k docs' = Some doc)
  /\ (k ∈ parsed_stems files ->
      exists f j,
        f ∈ files /\ file_stem f = k /\ file_json f = Return j
        /\ Py.dict_get k docs' = Some (Agent.make_document k (file_path f) j)).
Proof.
  intros Hfs Hk r docs'. subst docs' r.
  destruct (load_run fs directory files w Hfs) as (w' & -> & Hd & _).
  cbn [fst snd]. rewrite Hd.
  split; [reflexivity|]. split; [apply merge_keeps; eauto|]. split.
  - intros Hout. by rewrite merge_untouched.
  - intros Hin. by apply merge_replaced.
Qed.

Lemma C10_load_merges_into_corpus_witness :
  let r := Agent.load_from_directory Sample.fs_more "more" (Sample.world_abc "") in
  let docs' := documents (_index r.2) in
  Py.dict_get "a" docs' = Some (Sample.doc "a")
  /\ Py.dict_get "b" docs'
     = Some (Agent.make_document "b" "more/b.json" Sample.json_b)
  /\ Py.dict_keys docs' = ["a"; "b"; "c"; "d"].
Proof.
  intros r docs'.
  destruct (C10_load_merges_into_corpus Sample.fs_more "more"
              [ {| file_path := "more/b.json"; file_stem := "b";
                   file_json := Return Sample.json_b |};
                {| file_path := "more/x.json"; file_stem := "x";
                   file_json := Raise (FileError "Expecting value") |};
                {| file_path := "more/d.json"; file_stem := "d";
                   file_json := Return Sample.json_b |} ]
              (Sample.world_abc "") "a" (Sample.doc "a"))
    as (_ & _ & Hkeep & _); [reflexivity | reflexivity |].
  split; [|split; reflexivity].
  apply Hkeep. vm_compute. intros H.
  repeat (apply elem_of_cons in H as [H|H]; [discriminate H|]).
  by apply elem_of_nil in H.
Defined.

(** * Properties beyond the design document *)

(** ** Dictionaries *)

Module DictFacts.

Lemma dict_get_None_keys {V} (k : string) (d : Py.dict V) :
  Py.dict_get k d = None <-> k ∉ Py.dict_keys d.
Proof.
  unfold Py.dict_keys. induction d as [|[k' v] d IH]; simpl.
  - split; [intros _; apply not_elem_of_nil|done].
  - destruct (String.eqb k k') eqn:E.
    + apply String.eqb_eq in E as ->. split; [discriminate|].
      intros H. exfalso. apply H. apply list_elem_of_here.
    + apply String.eqb_neq in E. rewrite IH, not_elem_of_cons. tauto.
Qed.

Lemma dict_get_Some_keys {V} (k : string) (d : Py.dict V) :
  is_Some (Py.dict_get k d) <-> k ∈ Py.dict_keys d.
Proof.
  destruct (Py.dict_get k d) eqn:E.
  - split; [intros _|eauto].
    destruct (decide (k ∈ Py.dict_keys d)) as [|Hn]; [done|].
    apply dict_get_None_keys in Hn. congruence.
  - split; [intros [? ?]; done|]. intros Hin.
    apply dict_get_None_keys in E. contradiction.
Qed.

(** An assignment keeps the key order; a new key goes last. *)
Lemma dict_keys_set {V} (k : string) (v : V) (d : Py.dict V) :
  Py.dict_keys (Py.dict_set k v d)
  = if bool_decide (k ∈ Py.dict_keys d) then Py.dict_keys d
    else Py.dict_keys d ++ [k].
Proof.
  unfold Py.dict_keys. induction d as [|[k' v'] d IH]; cbn [Py.dict_set].
  - reflexivity.
  - destruct (String.eqb k k') eqn:E; rewrite !fmap_cons; cbn [fst].
    + apply String.eqb_eq in E as ->.
      rewrite bool_decide_eq_true_2 by apply list_elem_of_here. reflexivity.
    + apply String.eqb_neq in E. rewrite IH.
      destruct (decide (k ∈ d.*1)) as [Hin|Hout].
      * rewrite !bool_decide_eq_true_2; [reflexivity| |done].
        by apply list_elem_of_further.
      * rewrite !bool_decide_eq_false_2; [reflexivity| |done].
        rewrite not_elem_of_cons. done.
Qed.

Lemma dict_set_NoDup {V} (k : string) (v : V) (d : Py.dict V) :
  NoDup (Py.dict_keys d) -> NoDup (Py.dict_keys (Py.dict_set k v d)).
Proof.
  intros H. rewrite dict_keys_set. case_bool_decide; [done|].
  apply NoDup_app. split; [done|]. split.
  - intros x Hx Hk. apply list_elem_of_singleton in Hk as ->. contradiction.
  - apply NoDup_singleton.
Qed.

(** Two dictionaries with the same distinct keys in the same order and the
    same value under every key are the same dictionary. *)
Lemma dict_ext {V} (d1 d2 : Py.dict V) :
  NoDup (Py.dict_keys d1) ->
  Py.dict_keys d1 = Py.dict_keys d2 ->
  (forall k, Py.dict_get k d1 = Py.dict_get k d2) ->
  d1 = d2.
Proof.
  revert d2. induction d1 as [|[k v1] d1 IH]; intros [|[k2 v2] d2] Hnd Hk Hg;
    try discriminate Hk; [reflexivity|].
  unfold Py.dict_keys in *. rewrite !fmap_cons in Hk. rewrite fmap_cons in Hnd.
  cbn [fst] in Hk, Hnd.
  injection Hk as <- Hk. apply NoDup_cons in Hnd as [Hnin Hnd].
  pose proof (Hg k) as Hgk. cbn [Py.dict_get] in Hgk.
  rewrite String.eqb_refl in Hgk.
  injection Hgk as <-. f_equal.
  apply IH; [done|done|]. intros k'.
  destruct (String.eqb k' k) eqn:E.
  - apply String.eqb_eq in E as ->.
    assert (H1 : Py.dict_get k d1 = None) by (by apply dict_get_None_keys).
    assert (H2 : Py.dict_get k d2 = None).
    { apply dict_get_None_keys. unfold Py.dict_keys. by rewrite <- Hk. }
    congruence.
  - specialize (Hg k'). cbn [Py.dict_get] in Hg. by rewrite E in Hg.
Qed.

End DictFacts.

(** ** Loading, file by file *)

Module LoadTrace.
Import AgentFacts LoadFacts DictFacts.

Lemma load_file_world (f : CorpusFile) (w : World) :
  Agent.load_file f w = (Return tt, world_after_files [f] w).
Proof.
  unfold Agent.load_file, world_after_files, merge_files, file_record. run.
  destruct w as [[docs l c] cv calls lg]. simpl.
  destruct (file_json f) as [j|e]; reflexivity.
Qed.

Lemma world_after_files_cons (f : CorpusFile) (files : list CorpusFile) (w : World) :
  world_after_files files (world_after_files [f] w) = world_after_files (f :: files) w.
Proof.
  unfold world_after_files. cbn -[merge_files app].
  f_equal. symmetry. apply (app_assoc (log w) [file_record f]).
Qed.

(** The loading loop never raises; it stores the files that parse and logs
    one record per file. *)
Lemma load_loop_world (files : list CorpusFile) (w : World) :
  for_each files Agent.load_file w = (Return tt, world_after_files files w).
Proof.
  revert w. induction files as [|f files IH]; intros w.
  - unfold world_after_files. simpl. rewrite app_nil_r.
    by destruct w as [[docs l c] cv calls lg].
  - cbn [for_each]. unfold bind. rewrite load_file_world, IH.
    by rewrite world_after_files_cons.
Qed.

Lemma load_world (fs : string -> option (list CorpusFile))
  (directory : string) (files : list CorpusFile) (w : World) :
  fs directory = Some files ->
  Agent.load_from_directory fs directory w
  = (Return tt,
     {| _index := {| documents := merge_files files (documents (_index w));
                     loaded := true;
                     _summaries_cache := "" |};
        conversations := conversations w;
        api_calls := api_calls w;
        log := log w ++ map file_record files
               ++ [LoadedDocuments
                     (Py.dict_len (merge_files files (documents (_index w))))
                     directory] |}).
Proof.
  intros H. unfold Agent.load_from_directory. rewrite H.
  unfold bind at 1. rewrite load_loop_world. run.
  unfold add_log, set_index, world_after_files. cbn -[merge_files app].
  by rewrite <- app_assoc.
Qed.

Lemma merge_files_snoc (files : list CorpusFile) (f : CorpusFile)
  (docs : Py.dict Document) :
  merge_files (files ++ [f]) docs = merge_files [f] (merge_files files docs).
Proof. unfold merge_files. by rewrite foldl_app. Qed.

Lemma last_parsed_snoc (k : string) (files : list CorpusFile) (f : CorpusFile) :
  last_parsed k (files ++ [f])
  = if parses_as k f then Some f else last_parsed k files.
Proof. unfold last_parsed. rewrite rev_unit. reflexivity. Qed.

Lemma parses_as_document (k : string) (f : CorpusFile) :
  parses_as k f = true ->
  exists j, file_json f = Return j /\ file_stem f = k
            /\ loaded_document f = Some (Agent.make_document k (file_path f) j).
Proof.
  unfold parses_as, loaded_document. destruct (file_json f) as [j|e]; [|done].
  intros H. apply String.eqb_eq in H as <-. eauto.
Qed.

(** Lookup after the loop: the last file with that stem that parses wins;
    a key no parsing file has is left as it was. *)
Lemma merge_files_get (files : list CorpusFile) (docs : Py.dict Document)
  (k : string) :
  Py.dict_get k (merge_files files docs)
  = match last_parsed k files with
    | Some f => loaded_document f
    | None => Py.dict_get k docs
    end.
Proof.
  induction files as [|f files IH] using rev_ind; [reflexivity|].
  rewrite merge_files_snoc, last_parsed_snoc.
  unfold merge_files at 1. cbn [foldl].
  destruct (parses_as k f) eqn:E.
  - destruct (parses_as_document k f E) as (j & Hj & <- & ->).
    rewrite Hj. apply PyFacts.dict_get_set_eq.
  - unfold parses_as in E. destruct (file_json f) as [j|e]; [|exact IH].
    apply String.eqb_neq in E.
    rewrite PyFacts.dict_get_set_ne by exact E. exact IH.
Qed.

Lemma merge_files_keys (files : list CorpusFile) (docs : Py.dict Document) :
  Py.dict_keys (merge_files files docs) = keys_after files (Py.dict_keys docs).
Proof.
  revert docs. induction files as [|f files IH]; intros docs; [reflexivity|].
  rewrite merge_files_cons, IH. unfold merge_files, keys_after. cbn [foldl].
  destruct (file_json f) as [j|e]; [rewrite dict_keys_set|]; reflexivity.
Qed.

Lemma merge_files_NoDup (files : list CorpusFile) (docs : Py.dict Document) :
  NoDup (Py.dict_keys docs) -> NoDup (Py.dict_keys (merge_files files docs)).
Proof.
  revert docs. induction files as [|f files IH]; intros docs H; [done|].
  rewrite merge_files_cons. apply IH.
  unfold merge_files. cbn [foldl].
  destruct (file_json f); [by apply dict_set_NoDup|done].
Qed.

Lemma keys_after_distinct (files : list CorpusFile) (keys : list string) :
  NoDup (keys ++ parsed_stems files) ->
  keys_after files keys = keys ++ parsed_stems files.
Proof.
  revert keys. induction files as [|f files IH]; intros keys H.
  - simpl. by rewrite app_nil_r.
  - unfold keys_after, parsed_stems in *. cbn [foldl omap list_omap] in *.
    destruct (file_json f) as [j|e]; cbn in H |- *.
    + rewrite bool_decide_eq_false_2.
      * rewrite IH; rewrite <- app_assoc; [reflexivity|exact H].
      * apply NoDup_app in H as (_ & H & _). intros Hin. apply (H _ Hin).
        apply list_elem_of_here.
    + by apply IH.
Qed.

(** A stem that is already a key does not move or duplicate. *)
Lemma keys_after_present (files : list CorpusFile) (keys : list string) :
  (forall k, k ∈ parsed_stems files -> k ∈ keys) ->
  keys_after files keys = keys.
Proof.
  induction files as [|f files IH]; intros H; [reflexivity|].
  unfold keys_after, parsed_stems in *. cbn [foldl omap list_omap] in *.
  destruct (file_json f) as [j|e]; cbn in H |- *.
  - rewrite bool_decide_eq_true_2 by (apply H, list_elem_of_here).
    apply IH. intros k Hk. by apply H, list_elem_of_further.
  - by apply IH.
Qed.

Lemma last_parsed_stems (k : string) (files : list CorpusFile) :
  k ∈ parsed_stems files <-> is_Some (last_parsed k files).
Proof.
  induction files as [|f files IH] using rev_ind.
  - split; [intros H; by apply elem_of_nil in H|intros [? ?]; done].
  - rewrite last_parsed_snoc. unfold parsed_stems in *. rewrite omap_app.
    rewrite elem_of_app, IH. unfold parses_as. cbn.
    destruct (file_json f) as [j|e]; cbn.
    + destruct (String.eqb (file_stem f) k) eqn:E.
      * apply String.eqb_eq in E as <-. split; [eauto|].
        intros _. right. apply list_elem_of_here.
      * apply String.eqb_neq in E. split; [|tauto].
        intros [H|H]; [done|]. apply list_elem_of_singleton in H. congruence.
    + split; [|tauto]. intros [H|H]; [done|]. by apply elem_of_nil in H.
Qed.

(** Reading the same files twice gives the corpus of reading them once. *)
Lemma merge_files_twice (files : list CorpusFile) (docs : Py.dict Document) :
  NoDup (Py.dict_keys docs) ->
  merge_files files (merge_files files docs) = merge_files files docs.
Proof.
  intros Hnd. apply dict_ext.
  - by do 2 apply merge_files_NoDup.
  - rewrite merge_files_keys. apply keys_after_present.
    intros k Hk. apply dict_get_Some_keys.
    apply last_parsed_stems in Hk as [f Hf].
    rewrite merge_files_get, Hf.
    apply List.find_some in Hf as [_ Hp].
    destruct (parses_as_document k f Hp) as (j & _ & _ & ->). eauto.
  - intros k. rewrite (merge_files_get files (merge_files files docs)).
    destruct (last_parsed k files) as [f|] eqn:E.
    + by rewrite merge_files_get, E.
    + reflexivity.
Qed.

End LoadTrace.

(** ** The selector and the retrieval, as functions of the state *)

Module SelectorTrace.
Import AgentFacts SelectorFacts DictFacts.

Section WithApi.
Context (api : list Request -> Request -> Outcome Response).

Lemma store_active_true (ix : DocumentIndex) :
  store_active ix = true <-> loaded ix = true /\ documents ix <> [].
Proof.
  unfold store_active, Py.dict_len. rewrite andb_true_iff, negb_true_iff.
  rewrite Nat.eqb_neq. rewrite length_zero_iff_nil. tauto.
Qed.

Lemma store_active_false (ix : DocumentIndex) :
  store_active ix = false <-> loaded ix = false \/ documents ix = [].
Proof.
  unfold store_active, Py.dict_len. rewrite andb_false_iff, negb_false_iff.
  rewrite Nat.eqb_eq. rewrite length_zero_iff_nil. tauto.
Qed.

(** One call of the selector, whatever the state and the bound: it never
    raises, returns [selection_of], sends [selector_calls], and leaves the
    sessions and the load generation alone. *)
Lemma select_total (query : string) (max_docs : Z) (w : World) :
  exists w',
    Agent.select_relevant_docs api query max_docs w
    = (Return (selection_of api query max_docs w), w')
    /\ api_calls w' = api_calls w ++ selector_calls query max_docs w
    /\ conversations w' = conversations w
    /\ same_generation w w'.
Proof.
  unfold selection_of, selector_calls.
  destruct (store_active (_index w)) eqn:E.
  - apply store_active_true in E as [El Ed].
    destruct (select_run api query max_docs w El Ed)
      as (ids & w' & new & Hs & Hg & Hc & Ha & _ & Hm).
    exists w'. split; [|split; [exact Ha|split; [exact Hc|exact Hg]]].
    rewrite Hs. do 2 f_equal.
    destruct (api (api_calls w) _); by destruct Hm as [-> _].
  - apply store_active_false in E.
    exists (add_log NoDocumentsLoaded w). rewrite select_idle by exact E.
    simpl. rewrite app_nil_r. by repeat split.
Qed.

Lemma slice_to_sublist {A} (n : Z) (l : list A) : Py.slice_to n l `sublist_of` l.
Proof. unfold Py.slice_to. destruct (0 <=? n)%Z; apply sublist_take. Qed.

Lemma parsing_policy_known (docs : Py.dict Document) (response d_id : string) :
  d_id ∈ parsing_policy docs response -> is_Some (Py.dict_get d_id docs).
Proof.
  unfold parsing_policy. cbv zeta.
  destruct (is_none_token (Py.strip response)).
  - intros H. by apply elem_of_nil in H.
  - intros H. apply list_elem_of_In, List.filter_In in H as [_ H].
    by apply bool_decide_eq_true in H.
Qed.

(** Every selected id is a key of the index, for every bound. *)
Lemma selection_known (query : string) (max_docs : Z) (w : World) (d_id : string) :
  d_id ∈ selection_of api query max_docs w ->
  is_Some (Py.dict_get d_id (documents (_index w))).
Proof.
  unfold selection_of. destruct (store_active (_index w)).
  - destruct (api (api_calls w) _) as [resp|e].
    + intros H. apply (parsing_policy_known _ (text resp)).
      exact (sublist_subseteq _ _ (slice_to_sublist _ _) _ H).
    + intros H. by apply elem_of_nil in H.
  - intros H. by apply elem_of_nil in H.
Qed.

(** Looking up ids that are all present loses none of them. *)
Lemma lookup_present_all (docs : Py.dict Document) (ids : list string) :
  (forall d_id, d_id ∈ ids -> is_Some (Py.dict_get d_id docs)) ->
  Forall2 (fun d_id doc => Py.dict_get d_id docs = Some doc)
          ids (lookup_present docs ids).
Proof.
  unfold lookup_present. induction ids as [|d_id ids IH]; intros H.
  - constructor.
  - cbn. destruct (H d_id) as [doc Hd]; [apply list_elem_of_here|].
    rewrite Hd. cbn. constructor; [exact Hd|].
    apply IH. intros x Hx. by apply H, list_elem_of_further.
Qed.

(** The ids carried by the documents of a lookup on a well-formed index are
    the requested ids that are keys, in request order. *)
Lemma lookup_present_ids (ix : DocumentIndex) (ids : list string) :
  index_wf ix ->
  map doc_id (lookup_present (documents ix) ids)
  = List.filter (fun d_id => Py.dict_mem d_id (documents ix)) ids.
Proof.
  intros (_ & Hid & _). unfold lookup_present.
  induction ids as [|d_id ids IH]; [reflexivity|].
  cbn. unfold Py.dict_mem at 1.
  destruct (Py.dict_get d_id (documents ix)) as [doc|] eqn:E; cbn.
  - rewrite (Hid _ _ E). f_equal. exact IH.
  - exact IH.
Qed.

(** Retrieval is selection followed by lookup, and never raises. *)
Lemma retrieve_total (query : string) (max_docs : Z) (w : World) :
  exists w',
    Agent.retrieve_documents api query max_docs w
    = (Return (lookup_present (documents (_index w))
                              (selection_of api query max_docs w)), w')
    /\ Agent.select_relevant_docs api query max_docs w
       = (Return (selection_of api query max_docs w), w')
    /\ api_calls w' = api_calls w ++ selector_calls query max_docs w
    /\ conversations w' = conversations w
    /\ same_generation w w'.
Proof.
  destruct (select_total query max_docs w) as (w' & Hs & Ha & Hc & Hg).
  exists w'. split; [|done].
  unfold Agent.retrieve_documents, Agent.get_documents, bind. rewrite Hs.
  destruct (selection_of api query max_docs w) as [|d_id ids] eqn:E.
  - reflexivity.
  - cbn [Py.truthy_list negb]. rewrite get_documents_by_ids_run.
    destruct Hg as (-> & _). reflexivity.
Qed.

End WithApi.
End SelectorTrace.

(** ** One call of [ask_claude], in full *)

Module AskTrace.
Import AgentFacts SelectorFacts SelectorTrace.

Section WithApi.
Context (api : list Request -> Request -> Outcome Response).

Lemma ask_claude_total (user_id message : string) (w : World) :
  let prior := api_calls w ++ selector_calls message 3 w in
  let req := generation_request api user_id message w in
  exists w',
    App.ask_claude api user_id message w
    = (Return (reply_of (api prior req)), w')
    /\ api_calls w' = prior ++ [req]
    /\ conversations w'
       = <[user_id := session_after user_id message w (api prior req)]>
           (conversations w)
    /\ same_generation w w'.
Proof.
  intros prior req. subst prior req.
  unfold App.ask_claude, generation_request, session_after, reply_of,
    sent_history, session.
  set (w0 := match conversations w !! user_id with
             | Some _ => w
             | None => set_conversations (<[user_id := []]> (conversations w)) w
             end).
  assert (H0 : conversations w0 !! user_id
               = Some (default [] (conversations w !! user_id))).
  { unfold w0. destruct (conversations w !! user_id) eqn:E; simpl.
    - exact E. - apply lookup_insert_eq. }
  assert (H0' : forall x, <[user_id := x]> (conversations w0)
                          = <[user_id := x]> (conversations w)).
  { intros x. unfold w0. destruct (conversations w !! user_id); simpl.
    - done. - apply insert_insert_eq. }
  assert (G0 : _index w0 = _index w /\ api_calls w0 = api_calls w).
  { unfold w0. destruct (conversations w !! user_id); by split. }
  destruct G0 as [Gi Ga].
  destruct (retrieve_total api message 3 w0) as (w1 & Hr & _ & Ha1 & Hc1 & Hg1).
  assert (Hsel : selection_of api message 3 w0 = selection_of api message 3 w).
  { unfold selection_of. by rewrite Gi, Ga. }
  assert (Hcalls : selector_calls message 3 w0 = selector_calls message 3 w).
  { unfold selector_calls. by rewrite Gi. }
  rewrite Hsel, Gi in Hr. rewrite Hcalls, Ga in Ha1.
  set (docs := lookup_present (documents (_index w))
                              (selection_of api message 3 w)) in *.
  set (hist := Py.slice_last 10 (default [] (conversations w !! user_id)
                                 ++ [{| role := user; content := message |}])).
  assert (Hstart :
    when (negb (bool_decide (is_Some (conversations w !! user_id))))
         (App.conversations_setitem user_id []) w = (Return tt, w0)).
  { unfold w0, App.conversations_setitem. run.
    destruct (conversations w !! user_id) eqn:E; reflexivity. }
  unfold bind at 1, get. cbv beta iota.
  unfold bind at 1. rewrite Hstart. cbv beta iota.
  unfold bind at 1. rewrite Hr. cbv beta iota.
  set (w2 := if Py.truthy_list docs
             then add_log (AddedDocuments (length docs)) w1 else w1).
  assert (H2 : conversations w2 = conversations w1 /\ api_calls w2 = api_calls w1
               /\ _index w2 = _index w1).
  { unfold w2. destruct (Py.truthy_list docs); by repeat split. }
  destruct H2 as (Hc2 & Ha2 & Hi2).
  assert (Hprompt :
    (if Py.truthy_list docs
     then logger (AddedDocuments (length docs));;
          ret (App.SYSTEM_PROMPT_WITH_CONTEXT
                 (Agent.format_context_for_claude docs))
     else ret App.SYSTEM_PROMPT) w1 = (Return (prompt_for docs), w2)).
  { unfold prompt_for, w2. destruct (Py.truthy_list docs); reflexivity. }
  unfold bind at 1. rewrite Hprompt. cbv beta iota.
  unfold App.conversations_append, App.conversations_getitem,
    App.conversations_setitem, Agent.messages_create.
  run. rewrite Hc2, Hc1, H0. simpl.
  rewrite lookup_insert_eq. simpl.
  rewrite lookup_insert_eq. simpl.
  rewrite Ha2, Ha1. fold hist.
  set (req := {| model := App.CLAUDE_MODEL; max_tokens := 2048;
                 system := SystemText (prompt_for docs); messages := hist |}).
  assert (Hgen : same_generation w w2).
  { destruct Hg1 as (Hd & Hl & Hli). unfold same_generation.
    rewrite Hi2, Hd, Hl, Hli, Gi. done. }
  destruct (api (api_calls w ++ selector_calls message 3 w) req)
    as [resp|e] eqn:Eapi; simpl.
  - rewrite lookup_insert_eq. simpl.
    eexists. split; [reflexivity|]. simpl.
    split; [by rewrite Ha2, Ha1|].
    split; [|destruct Hgen as (?&?&?); by repeat split].
    rewrite !insert_insert_eq, Hc2, Hc1. apply H0'.
  - eexists. split; [reflexivity|]. simpl.
    split; [by rewrite Ha2, Ha1|].
    split; [|destruct Hgen as (?&?&?); by repeat split].
    rewrite !insert_insert_eq, Hc2, Hc1, app_nil_r. apply H0'.
Qed.

End WithApi.
End AskTrace.

(** ** What every reachable state satisfies *)

Module Reachable.
Import AgentFacts SelectorFacts LoadFacts AppFacts SessionFacts.
Import DictFacts LoadTrace SelectorTrace AskTrace.

Section WithCollaborators.
Context (api : list Request -> Request -> Outcome Response).
Context (fs : string -> option (list CorpusFile)).

Lemma same_generation_wf (w w' : World) :
  same_generation w w' -> index_wf (_index w) -> index_wf (_index w').
Proof. intros (Hd & Hl & _). unfold index_wf. by rewrite Hd, Hl. Qed.

Lemma same_generation_fresh (w w' : World) :
  same_generation w w' -> cache_fresh (_index w) -> cache_fresh (_index w').
Proof. intros (Hd & _ & Hli). unfold cache_fresh. by rewrite Hd, Hli. Qed.

Lemma same_sessions_bounded (w w' : World) :
  conversations w' = conversations w -> sessions_bounded w -> sessions_bounded w'.
Proof. intros Hc. unfold sessions_bounded. by rewrite Hc. Qed.

Lemma merge_files_wf (files : list CorpusFile) (docs : Py.dict Document) :
  NoDup (Py.dict_keys docs) ->
  (forall k d, Py.dict_get k docs = Some d -> doc_id d = k) ->
  NoDup (Py.dict_keys (merge_files files docs))
  /\ forall k d, Py.dict_get k (merge_files files docs) = Some d -> doc_id d = k.
Proof.
  intros Hnd Hid. split; [by apply merge_files_NoDup|].
  intros k d. rewrite merge_files_get.
  destruct (last_parsed k files) as [f|] eqn:E; [|apply Hid].
  apply List.find_some in E as [_ Hp].
  destruct (parses_as_document k f Hp) as (j & _ & _ & ->).
  by intros [= <-].
Qed.

Lemma session_after_length (user_id message : string) (w : World)
  (result : Outcome Response) :
  length (session_after user_id message w result) <= 11.
Proof.
  unfold session_after. rewrite length_app.
  pose proof (sent_history_bounded user_id message w) as [H _].
  destruct result; cbn [length]; lia.
Qed.

Lemma load_invariant (directory : string) (w : World) :
  process_invariant w ->
  process_invariant (Agent.load_from_directory fs directory w).2.
Proof.
  intros ((Hnd & Hid & Hl) & Hf & Hs).
  destruct (fs directory) as [files|] eqn:E.
  - rewrite (load_world fs directory files w E). cbn [snd].
    destruct (merge_files_wf files _ Hnd Hid) as [Hnd' Hid'].
    split; [|split].
    + by repeat split.
    + reflexivity.
    + exact Hs.
  - rewrite (load_missing fs directory w E). by repeat split.
Qed.

Lemma run_op_invariant (op : Op) (w : World) :
  process_invariant w -> process_invariant (run_op api fs op w).
Proof.
  intros Hinv. destruct op; cbn [run_op].
  - by apply load_invariant.
  - destruct Hinv as (Hw & Hf & Hs).
    destruct (get_summaries_run w) as (w' & -> & Hg & _ & Hc & _).
    split; [|split]; [by eapply same_generation_wf | by eapply same_generation_fresh
                     | by eapply same_sessions_bounded].
  - destruct Hinv as (Hw & Hf & Hs).
    unfold Agent.estimate_summary_tokens, bind.
    destruct (get_summaries_run w) as (w' & -> & Hg & _ & Hc & _).
    split; [|split]; [by eapply same_generation_wf | by eapply same_generation_fresh
                     | by eapply same_sessions_bounded].
  - unfold Agent.get_documents. by rewrite get_documents_by_ids_run.
  - destruct Hinv as (Hw & Hf & Hs).
    destruct (select_total api query max_docs w) as (w' & -> & _ & Hc & Hg).
    split; [|split]; [by eapply same_generation_wf | by eapply same_generation_fresh
                     | by eapply same_sessions_bounded].
  - destruct Hinv as (Hw & Hf & Hs).
    destruct (retrieve_total api query max_docs w) as (w' & -> & _ & _ & Hc & Hg).
    split; [|split]; [by eapply same_generation_wf | by eapply same_generation_fresh
                     | by eapply same_sessions_bounded].
  - destruct Hinv as (Hw & Hf & Hs).
    destruct (ask_claude_total api user_id message w) as (w' & -> & _ & Hc & Hg).
    split; [|split]; [by eapply same_generation_wf | by eapply same_generation_fresh|].
    cbn [snd]. intros u history. rewrite Hc.
    destruct (decide (user_id = u)) as [->|Hne].
    + rewrite lookup_insert_eq. intros [= <-]. apply session_after_length.
    + rewrite lookup_insert_ne by done. apply Hs.
  - destruct Hinv as (Hw & Hf & Hs). split; [done|split; [done|]].
    intros u history. cbn.
    destruct (decide (user_id = u)) as [->|Hne].
    + rewrite lookup_insert_eq. intros [= <-]. cbn. lia.
    + rewrite lookup_insert_ne by done. apply Hs.
Qed.

Lemma initial_invariant : process_invariant initial_world.
Proof.
  split; [|split].
  - split; [apply NoDup_nil_2|]. split; [intros k d H; discriminate H|done].
  - reflexivity.
  - intros u history H. cbn in H. by rewrite lookup_empty in H.
Qed.

Lemma run_ops_invariant (ops : list Op) (w : World) :
  process_invariant w -> process_invariant (run_ops api fs ops w).
Proof.
  revert w. induction ops as [|op ops IH]; intros w H; [exact H|].
  cbn. apply IH. by apply run_op_invariant.
Qed.

End WithCollaborators.
End Reachable.

(** ** Properties of loading *)

Import AgentFacts SelectorFacts LoadFacts AppFacts GenerationFacts SessionFacts.
Import DictFacts LoadTrace SelectorTrace AskTrace Reachable.

(** X1. Loading an existing directory never raises, sets the loaded flag and
    empties the cached listing.  Afterwards a key holds the document made
    from the last file of the listing that parses and has that stem; a key
    no such file has is as before. *)
Theorem X1_load_last_file_wins
  (fs : string -> option (list CorpusFile))
  (directory : string) (files : list CorpusFile) (w : World) (k : string) :
  fs directory = Some files ->
  let r := Agent.load_from_directory fs directory w in
  r.1 = Return tt
  /\ loaded (_index r.2) = true
  /\ _summaries_cache (_index r.2) = ""
  /\ Py.dict_get k (documents (_index r.2))
     = match last_parsed k files with
       | Some f => loaded_document f
       | None => Py.dict_get k (documents (_index w))
       end
  /\ conversations r.2 = conversations w
  /\ api_calls r.2 = api_calls w.
Proof.
  intros H r. subst r. rewrite (load_world fs directory files w H).
  cbn [fst snd _index documents loaded _summaries_cache conversations api_calls].
  rewrite merge_files_get. by repeat split.
Qed.

Lemma X1_load_last_file_wins_witness :
  let r := Agent.load_from_directory Sample.fs_more "more" (Sample.world_abc "old") in
  r.1 = Return tt
  /\ loaded (_index r.2) = true
  /\ _summaries_cache (_index r.2) = ""
  /\ Py.dict_get "b" (documents (_index r.2))
     = Some (Agent.make_document "b" "more/b.json" Sample.json_b)
  /\ conversations r.2 = conversations (Sample.world_abc "old")
  /\ api_calls r.2 = api_calls (Sample.world_abc "old").
Proof.
  exact (X1_load_last_file_wins Sample.fs_more "more" Sample2.files_more
           (Sample.world_abc "old") "b" eq_refl).
Defined.

(** X2. Loading into an empty store a directory whose parsing files have
    distinct stems gives exactly one document per parsing file, keyed by the
    stems in listing order; files that do not parse leave no entry. *)
Theorem X2_load_fresh_store_keys
  (fs : string -> option (list CorpusFile))
  (directory : string) (files : list CorpusFile) (w : World) :
  fs directory = Some files ->
  documents (_index w) = [] ->
  NoDup (parsed_stems files) ->
  let docs' := documents (_index (Agent.load_from_directory fs directory w).2) in
  Py.dict_keys docs' = parsed_stems files
  /\ Py.dict_len docs' = length (parsed_stems files).
Proof.
  intros H He Hnd docs'. subst docs'.
  rewrite (load_world fs directory files w H). cbn [snd _index documents].
  assert (Hk : Py.dict_keys (merge_files files (documents (_index w)))
               = parsed_stems files).
  { rewrite merge_files_keys, He. by apply (keys_after_distinct files []). }
  split; [exact Hk|].
  rewrite <- Hk. unfold Py.dict_len, Py.dict_keys. by rewrite length_fmap.
Qed.

Lemma X2_load_fresh_store_keys_witness :
  let docs' := documents (_index (Agent.load_from_directory Sample.fs_more "more"
                                    initial_world).2) in
  Py.dict_keys docs' = ["b"; "d"] /\ Py.dict_len docs' = 2.
Proof.
  apply (X2_load_fresh_store_keys Sample.fs_more "more" Sample2.files_more
           initial_world); [reflexivity | reflexivity |].
  vm_compute. repeat constructor; intros H;
    repeat (apply elem_of_cons in H as [H|H]; [discriminate H|]);
    by apply elem_of_nil in H.
Defined.

(** X3. Loading logs one record per file of the directory, in listing
    order, and a closing count: a file that does not parse gives one record
    at level ERROR and does not stop the loop. *)
Theorem X3_load_logs_every_file
  (fs : string -> option (list CorpusFile))
  (directory : string) (files : list CorpusFile) (w : World) :
  fs directory = Some files ->
  let r := Agent.load_from_directory fs directory w in
  log r.2
  = log w ++ map file_record files
    ++ [LoadedDocuments (Py.dict_len (documents (_index r.2))) directory]
  /\ length (List.filter is_error (map file_record files))
     = length files - length (parsed_stems files).
Proof.
  intros H r. subst r. rewrite (load_world fs directory files w H).
  split; [reflexivity|].
  clear H.
  assert (Hsum : length (List.filter is_error (map file_record files))
                 + length (parsed_stems files) = length files).
  { unfold parsed_stems, file_record.
    induction files as [|f files IH]; [reflexivity|].
    cbn. destruct (file_json f) as [j|e]; cbn; lia. }
  lia.
Qed.

Lemma X3_load_logs_every_file_witness :
  let r := Agent.load_from_directory Sample.fs_more "more" initial_world in
  log r.2
  = log initial_world ++ map file_record Sample2.files_more
    ++ [LoadedDocuments (Py.dict_len (documents (_index r.2))) "more"]
  /\ length (List.filter is_error (map file_record Sample2.files_more))
     = length Sample2.files_more - length (parsed_stems Sample2.files_more).
Proof.
  exact (X3_load_logs_every_file Sample.fs_more "more" Sample2.files_more
           initial_world eq_refl).
Defined.

(** X4. Loading the same directory listing a second time changes nothing in
    the index: same documents in the same order, flag set, cache empty. *)
Theorem X4_reload_is_idempotent
  (fs : string -> option (list CorpusFile))
  (directory : string) (files : list CorpusFile) (w : World) :
  fs directory = Some files ->
  NoDup (Py.dict_keys (documents (_index w))) ->
  let once := (Agent.load_from_directory fs directory w).2 in
  let twice := (Agent.load_from_directory fs directory once).2 in
  _index twice = _index once.
Proof.
  intros H Hnd once twice. subst twice once.
  rewrite (load_world fs directory files w H). cbn [snd].
  rewrite (load_world fs directory files _ H). cbn [snd _index documents].
  by rewrite merge_files_twice.
Qed.

Lemma X4_reload_is_idempotent_witness :
  let once := (Agent.load_from_directory Sample.fs_more "more"
                 (Sample.world_abc "old")).2 in
  let twice := (Agent.load_from_directory Sample.fs_more "more" once).2 in
  _index twice = _index once.
Proof.
  apply (X4_reload_is_idempotent Sample.fs_more "more" Sample2.files_more
           (Sample.world_abc "old")); [reflexivity|].
  vm_compute. repeat constructor; intros H;
    repeat (apply elem_of_cons in H as [H|H]; [discriminate H|]);
    by apply elem_of_nil in H.
Defined.

(** ** Properties of every reachable state *)

(** X5. Whatever operations ran since the process started, the index is
    well formed: its keys are distinct, every document is stored under its
    own id, and a store that holds documents is flagged loaded. *)
Theorem X5_index_always_well_formed
  (api : list Request -> Request -> Outcome Response)
  (fs : string -> option (list CorpusFile)) (ops : list Op) :
  index_wf (_index (run_ops api fs ops initial_world)).
Proof. apply (run_ops_invariant api fs ops), initial_invariant. Qed.

(** X6. Whatever operations ran since the process started, loads included,
    the listing call returns the rendering of the documents the index holds
    at that moment: the cached listing is never stale. *)
Theorem X6_listing_never_stale
  (api : list Request -> Request -> Outcome Response)
  (fs : string -> option (list CorpusFile)) (ops : list Op) :
  let w := run_ops api fs ops initial_world in
  (Agent.get_summaries_for_selection w).1
  = Return (Py.join Py.LF
              (imap (fun i kv => Agent.summary_entry (S i) kv.1 kv.2)
                    (documents (_index w)))).
Proof.
  intros w.
  destruct (run_ops_invariant api fs ops _ initial_invariant) as (_ & Hf & _).
  destruct (get_summaries_run w) as (w' & -> & _).
  cbn [fst]. fold w in Hf. rewrite Hf. by rewrite summary_lines_imap.
Qed.

(** X7. Whatever operations ran since the process started, no session holds
    more than eleven turns. *)
Theorem X7_sessions_never_exceed_eleven
  (api : list Request -> Request -> Outcome Response)
  (fs : string -> option (list CorpusFile)) (ops : list Op) (user_id : string) :
  length (session user_id (run_ops api fs ops initial_world)) <= 11.
Proof.
  destruct (run_ops_invariant api fs ops _ initial_invariant) as (_ & _ & Hs).
  unfold session.
  destruct (conversations (run_ops api fs ops initial_world) !! user_id)
    as [history|] eqn:E; cbn; [by apply (Hs user_id)|lia].
Qed.

(** X8. In every reachable state the documents a lookup returns carry, in
    order, exactly the requested ids that are keys of the index. *)
Theorem X8_lookup_returns_requested_ids
  (api : list Request -> Request -> Outcome Response)
  (fs : string -> option (list CorpusFile)) (ops : list Op) (ids : list string) :
  let w := run_ops api fs ops initial_world in
  exists docs,
    Agent.get_documents ids w = (Return docs, w)
    /\ map doc_id docs
       = List.filter (fun d_id => Py.dict_mem d_id (documents (_index w))) ids.
Proof.
  intros w. eexists. unfold Agent.get_documents.
  split; [apply get_documents_by_ids_run|].
  apply lookup_present_ids.
  apply (run_ops_invariant api fs ops _ initial_invariant).
Qed.

(** ** Properties of the selector and the retrieval *)

(** X9. Whenever the selector returns, for whatever state, query and
    bound, every id it returns is a key of the index, it has sent at most
    one request, and it has changed neither the sessions nor the
    documents. *)
Theorem X9_select_returns_known_ids
  (api : list Request -> Request -> Outcome Response)
  (query : string) (max_docs : Z) (w : World)
  (ids : list string) (w' : World) :
  Agent.select_relevant_docs api query max_docs w = (Return ids, w') ->
  Forall (fun d_id => Py.dict_mem d_id (documents (_index w)) = true) ids
  /\ (exists sent, api_calls w' = api_calls w ++ sent /\ length sent <= 1)
  /\ conversations w' = conversations w
  /\ documents (_index w') = documents (_index w).
Proof.
  intros Hrun.
  destruct (select_total api query max_docs w) as (w0 & Hs & Ha & Hc & Hg & _).
  rewrite Hs in Hrun. injection Hrun as <- <-.
  split.
  { apply Forall_forall. intros d_id Hin.
    rewrite PyFacts.dict_mem_get. apply bool_decide_eq_true.
    by apply (selection_known api query max_docs). }
  split; [|done].
  exists (selector_calls query max_docs w). split; [exact Ha|].
  unfold selector_calls. destruct (store_active (_index w)); cbn; lia.
Qed.

Lemma X9_select_returns_known_ids_witness :
  let r := Agent.select_relevant_docs (Sample.api_fixed Sample.noisy_ids)
             "refund" 2 (Sample.world_abc "") in
  Forall (fun d_id =>
            Py.dict_mem d_id (documents (_index (Sample.world_abc ""))) = true)
         ["a"; "b"]
  /\ (exists sent, api_calls r.2 = api_calls (Sample.world_abc "") ++ sent
                   /\ length sent <= 1)
  /\ conversations r.2 = conversations (Sample.world_abc "")
  /\ documents (_index r.2) = documents (_index (Sample.world_abc "")).
Proof.
  intros r.
  apply (X9_select_returns_known_ids (Sample.api_fixed Sample.noisy_ids)
           "refund" 2 (Sample.world_abc "") ["a"; "b"] r.2).
  change (r = (Return ["a"; "b"], r.2)).
  rewrite (surjective_pairing r) at 1. f_equal; vm_compute; reflexivity.
Defined.

(** X10. Retrieval is selection followed by lookup and loses nothing: it
    returns one document per selected id, the one stored under that id, in
    the order of the selection, and it leaves the state the selector left. *)
Theorem X10_retrieve_resolves_every_selected_id
  (api : list Request -> Request -> Outcome Response)
  (query : string) (max_docs : Z) (w : World) :
  exists ids docs w',
    Agent.select_relevant_docs api query max_docs w = (Return ids, w')
    /\ Agent.retrieve_documents api query max_docs w = (Return docs, w')
    /\ Forall2 (fun d_id doc =>
                  Py.dict_get d_id (documents (_index w)) = Some doc) ids docs.
Proof.
  destruct (retrieve_total api query max_docs w) as (w' & Hr & Hs & _).
  do 2 eexists. exists w'. split; [exact Hs|]. split; [exact Hr|].
  apply lookup_present_all. intros d_id. apply selection_known.
Qed.

(** X11. Within one load generation the system part of the selector request
    does not depend on the query or on what ran in between: two calls with
    the same bound send the same two blocks, the second of which carries the
    cache mark; only the user message differs. *)
Theorem X11_selector_prefix_is_stable
  (api : list Request -> Request -> Outcome Response)
  (fs : string -> option (list CorpusFile))
  (ops : list Op) (query1 query2 : string) (max_docs : Z) (w : World) :
  store_active (_index w) = true ->
  Forall (fun op => is_load op = false) ops ->
  let w1 := (Agent.select_relevant_docs api query1 max_docs w).2 in
  let w2 := run_ops api fs ops w1 in
  let w3 := (Agent.select_relevant_docs api query2 max_docs w2).2 in
  exists req1 req2 instructions,
    last (api_calls w1) = Some req1
    /\ last (api_calls w3) = Some req2
    /\ system req1 = system req2
    /\ system req1
       = SystemBlocks
           [ {| block_text := instructions; cache_control := false |};
             {| block_text := "Ready to select relevant documents.";
                cache_control := true |} ]
    /\ messages req1
       = [ {| role := user;
              content := "Which document IDs are most relevant to this query: "
                         +:+ query1 |} ]
    /\ messages req2
       = [ {| role := user;
              content := "Which document IDs are most relevant to this query: "
                         +:+ query2 |} ].
Proof.
  intros Hact Hops w1 w2 w3. subst w3 w2 w1.
  destruct (select_total api query1 max_docs w) as (w1 & -> & Ha1 & _ & Hg1).
  cbn [snd].
  pose proof (run_ops_same_generation api fs ops w1 Hops) as Hg2.
  set (w2 := run_ops api fs ops w1) in *.
  destruct (select_total api query2 max_docs w2) as (w3 & -> & Ha3 & _ & _).
  cbn [snd].
  assert (Hact2 : store_active (_index w2) = true).
  { destruct Hg1 as (Hd1 & Hl1 & _), Hg2 as (Hd2 & Hl2 & _).
    unfold store_active in *. by rewrite Hd2, Hl2, Hd1, Hl1. }
  assert (Hlist : listing_of (_index w2) = listing_of (_index w)).
  { destruct Hg1 as (_ & _ & H1), Hg2 as (_ & _ & H2). by rewrite H2, H1. }
  unfold selector_calls in Ha1, Ha3. rewrite Hact in Ha1. rewrite Hact2 in Ha3.
  rewrite Hlist in Ha3.
  do 3 eexists. rewrite Ha1, Ha3, !last_snoc.
  split; [reflexivity|]. split; [reflexivity|]. by repeat split.
Qed.

Lemma X11_selector_prefix_is_stable_witness :
  let api := Sample.api_fixed Sample.noisy_ids in
  let w := Sample.world_abc "" in
  let w1 := (Agent.select_relevant_docs api "refund" 3 w).2 in
  let w2 := run_ops api Sample.fs_more [OpAsk "U1" "hi"; OpListing] w1 in
  let w3 := (Agent.select_relevant_docs api "payout" 3 w2).2 in
  exists req1 req2,
    last (api_calls w1) = Some req1
    /\ last (api_calls w3) = Some req2
    /\ system req1 = system req2.
Proof.
  intros api w w1 w2 w3.
  destruct (X11_selector_prefix_is_stable api Sample.fs_more
              [OpAsk "U1" "hi"; OpListing] "refund" "payout" 3 w)
    as (req1 & req2 & ins & H1 & H2 & H3 & _);
    [reflexivity | repeat constructor |].
  exists req1, req2. by repeat split.
Defined.

(** ** Properties of [ask_claude] *)

(** X12. Whenever a call of [ask_claude] returns, it has sent exactly one
    generation request, last, preceded by one selector request when the
    store is loaded and not empty and by none otherwise; nothing is
    retried.  The generation request names the chat model, allows 2048
    tokens and carries the context prompt, built from the retrieved
    documents, exactly when some were retrieved. *)
Theorem X12_ask_claude_requests
  (api : list Request -> Request -> Outcome Response)
  (user_id message : string) (w : World) (reply : string) (w' : World) :
  App.ask_claude api user_id message w = (Return reply, w') ->
  exists req docs,
    (Agent.retrieve_documents api message 3 w).1 = Return docs
    /\ api_calls w'
       = api_calls w
         ++ (if loaded (_index w)
                && negb (Py.dict_len (documents (_index w)) =? 0)%nat
             then [Agent.selector_request message 3 (listing_of (_index w))]
             else [])
         ++ [req]
    /\ model req = App.CLAUDE_MODEL
    /\ max_tokens req = 2048%Z
    /\ system req
       = SystemText
           (match docs with
            | [] => App.SYSTEM_PROMPT
            | _ :: _ =>
                App.SYSTEM_PROMPT_WITH_CONTEXT
                  (Agent.format_context_for_claude docs)
            end)
    /\ documents (_index w') = documents (_index w).
Proof.
  intros Hask.
  destruct (ask_claude_total api user_id message w) as (w0 & Hrun & Ha & _ & Hg & _).
  rewrite Hrun in Hask. injection Hask as _ <-.
  destruct (retrieve_total api message 3 w) as (w1 & Hr & _).
  exists (generation_request api user_id message w).
  eexists. split; [by rewrite Hr|]. split.
  { rewrite Ha. unfold selector_calls, store_active. by rewrite <- app_assoc. }
  split; [reflexivity|]. split; [reflexivity|]. split; [|exact Hg].
  unfold generation_request, prompt_for. cbn [system].
  by destruct (lookup_present _ _).
Qed.

Lemma X12_ask_claude_requests_witness :
  let w := Sample.world_abc "" in
  let r := App.ask_claude (Sample.api_fixed Sample.noisy_ids) "U1" "refund?" w in
  exists req docs,
    (Agent.retrieve_documents (Sample.api_fixed Sample.noisy_ids)
       "refund?" 3 w).1 = Return docs
    /\ api_calls r.2
       = api_calls w
         ++ (if loaded (_index w)
                && negb (Py.dict_len (documents (_index w)) =? 0)%nat
             then [Agent.selector_request "refund?" 3 (listing_of (_index w))]
             else [])
         ++ [req]
    /\ model req = App.CLAUDE_MODEL
    /\ max_tokens req = 2048%Z
    /\ system req
       = SystemText
           (match docs with
            | [] => App.SYSTEM_PROMPT
            | _ :: _ =>
                App.SYSTEM_PROMPT_WITH_CONTEXT
                  (Agent.format_context_for_claude docs)
            end)
    /\ documents (_index r.2) = documents (_index w).
Proof.
  intros w r.
  apply (X12_ask_claude_requests (Sample.api_fixed Sample.noisy_ids)
           "U1" "refund?" w Sample.noisy_ids r.2).
  change (r = (Return Sample.noisy_ids, r.2)).
  rewrite (surjective_pairing r) at 1. f_equal; vm_compute; reflexivity.
Defined.

(** X13. When the generation request succeeds, [ask_claude] returns the
    text of the response and the session ends with the exchange: the
    history that was sent followed by the assistant turn. *)
Theorem X13_ask_claude_records_exchange
  (api : list Request -> Request -> Outcome Response)
  (user_id message : string) (w : World)
  (reply : Outcome string) (w' : World)
  (prior : list Request) (req : Request) (resp : Response) :
  App.ask_claude api user_id message w = (reply, w') ->
  api_calls w' = prior ++ [req] ->
  api prior req = Return resp ->
  reply = Return (text resp)
  /\ session user_id w'
     = Py.slice_last 10 (session user_id w
                         ++ [{| role := user; content := message |}])
       ++ [{| role := assistant; content := text resp |}].
Proof.
  intros Hrun Hcalls Hapi.
  destruct (ask_claude_total api user_id message w) as (w0 & Hrun0 & Ha & Hc & _).
  rewrite Hrun0 in Hrun. injection Hrun as <- <-.
  rewrite Ha in Hcalls. apply app_inj_tail in Hcalls as [<- <-].
  rewrite Hapi in Hc |- *. split; [reflexivity|].
  unfold session at 1. rewrite Hc, lookup_insert_eq. reflexivity.
Qed.

Lemma X13_ask_claude_records_exchange_witness :
  let r := App.ask_claude Sample.api_echo "U1" "hi" initial_world in
  r.1 = Return "re: hi"
  /\ session "U1" r.2
     = Py.slice_last 10 (session "U1" initial_world
                         ++ [{| role := user; content := "hi" |}])
       ++ [{| role := assistant; content := "re: hi" |}].
Proof.
  intros r.
  apply (X13_ask_claude_records_exchange Sample.api_echo "U1" "hi"
           initial_world r.1 r.2 []
           (Sample.bare_request [Sample.turn user "hi"])
           {| text := "re: hi"; cache_creation_input_tokens := 0;
              cache_read_input_tokens := 0 |}).
  - subst r. apply surjective_pairing.
  - vm_compute. reflexivity.
  - reflexivity.
Defined.

(** X14. A call of [ask_claude] by one user leaves the session of every
    other user as it was, whether the generation request succeeds or not. *)
Theorem X14_ask_claude_isolates_users
  (api : list Request -> Request -> Outcome Response)
  (user_id message other : string) (w : World) :
  other <> user_id ->
  conversations (App.ask_claude api user_id message w).2 !! other
  = conversations w !! other.
Proof.
  intros Hne.
  destruct (ask_claude_total api user_id message w) as (w' & -> & _ & Hc & _).
  cbn [snd]. rewrite Hc. by apply lookup_insert_ne.
Qed.

Lemma X14_ask_claude_isolates_users_witness :
  conversations (App.ask_claude Sample.api_echo "U1" "hi"
                   (ask_n Sample.api_echo "U2" Sample.message 1 2 initial_world)).2
    !! "U2"
  = conversations (ask_n Sample.api_echo "U2" Sample.message 1 2 initial_world)
    !! "U2".
Proof.
  apply (X14_ask_claude_isolates_users Sample.api_echo "U1" "hi" "U2").
  discriminate.
Defined.

(** X15. The generation request never carries more than ten turns; they are
    the most recent turns of the session and the last of them is the user
    turn of the call. *)
Theorem X15_generation_request_is_bounded
  (api : list Request -> Request -> Outcome Response)
  (user_id message : string) (w : World) :
  exists req,
    last (api_calls (App.ask_claude api user_id message w).2) = Some req
    /\ length (messages req) <= 10
    /\ last (messages req) = Some {| role := user; content := message |}
    /\ messages req
       `suffix_of` session user_id w ++ [{| role := user; content := message |}].
Proof.
  destruct (ask_claude_total api user_id message w) as (w' & -> & Ha & _).
  exists (generation_request api user_id message w). cbn [snd].
  split; [rewrite Ha; apply last_snoc|].
  unfold generation_request. cbn [messages].
  destruct (sent_history_bounded user_id message w) as [Hl Hlast].
  split; [exact Hl|]. split; [exact Hlast|].
  unfold sent_history. apply PyFacts.slice_last_suffix.
Qed.

(** X16. When the selector returns no id (the store is not loaded or
    empty, the selector call failed, or nothing relevant was named), the
    call still answers: it sends the generation request with the bare
    instructions. *)
Theorem X16_no_selection_means_bare_prompt
  (api : list Request -> Request -> Outcome Response)
  (user_id message : string) (w : World) :
  (Agent.select_relevant_docs api message 3 w).1 = Return [] ->
  exists reply w' req,
    App.ask_claude api user_id message w = (Return reply, w')
    /\ last (api_calls w') = Some req
    /\ system req = SystemText App.SYSTEM_PROMPT
    /\ messages req = sent_history user_id message w.
Proof.
  intros Hsel.
  destruct (select_total api message 3 w) as (w1 & Hs & _).
  rewrite Hs in Hsel. injection Hsel as Hsel.
  destruct (ask_claude_total api user_id message w) as (w' & Hrun & Ha & _).
  do 2 eexists. exists (generation_request api user_id message w).
  split; [exact Hrun|]. split; [rewrite Ha; apply last_snoc|].
  unfold generation_request. by rewrite Hsel.
Qed.

Lemma X16_no_selection_means_bare_prompt_witness :
  exists reply w' req,
    App.ask_claude Sample.api_down "U1" "hi" (Sample.world_abc "")
    = (Return reply, w')
    /\ last (api_calls w') = Some req
    /\ system req = SystemText App.SYSTEM_PROMPT
    /\ messages req = sent_history "U1" "hi" (Sample.world_abc "").
Proof.
  apply (X16_no_selection_means_bare_prompt Sample.api_down "U1" "hi"
           (Sample.world_abc "")).
  reflexivity.
Defined.

(** X17. After a reset the next call starts from nothing: its generation
    request carries the new user turn alone, and on success the session
    holds that turn and the reply.  The reset itself answers with its
    confirmation and touches no other session. *)
Theorem X17_reset_starts_fresh
  (api : list Request -> Request -> Outcome Response)
  (user_id message : string) (w : World) :
  let r0 := App.reset_command user_id w in
  let r := App.ask_claude api user_id message r0.2 in
  r0.1 = Return "Conversation reset!"
  /\ session user_id r0.2 = []
  /\ (forall other, other <> user_id ->
                    conversations r0.2 !! other = conversations w !! other)
  /\ exists req,
       last (api_calls r.2) = Some req
       /\ messages req = [{| role := user; content := message |}]
       /\ length (session user_id r.2) <= 2.
Proof.
  intros r0 r. subst r r0. cbn [App.reset_command].
  unfold App.reset_command, App.conversations_setitem, bind, ret. cbn [fst snd].
  set (w0 := set_conversations _ w).
  assert (Hs0 : session user_id w0 = []).
  { unfold session, w0. cbn. by rewrite lookup_insert_eq. }
  split; [reflexivity|]. split; [exact Hs0|]. split.
  { intros other Hne. unfold w0. cbn. by apply lookup_insert_ne. }
  destruct (ask_claude_total api user_id message w0) as (w' & -> & Ha & Hc & _).
  exists (generation_request api user_id message w0). cbn [snd].
  split; [rewrite Ha; apply last_snoc|].
  assert (Hh : sent_history user_id message w0
               = [{| role := user; content := message |}]).
  { unfold sent_history. by rewrite Hs0. }
  split; [exact Hh|].
  unfold session. rewrite Hc, lookup_insert_eq. cbn [default from_option id].
  unfold session_after. rewrite Hh. destruct (api _ _); cbn; lia.
Qed.

(** ** Properties of the Slack handlers *)

Module BoltFacts.
Import Bolt AskTrace.

Ltac hrun :=
  unfold hbind, hret, hraise, getitem, slack_call, lift;
  cbn -[App.ask_claude app].

Lemma append_assoc (a b c : string) : (a +:+ b) +:+ c = a +:+ b +:+ c.
Proof.
  induction a as [|x a IH]; [reflexivity|].
  change (String x ((a +:+ b) +:+ c) = String x (a +:+ b +:+ c)).
  by rewrite IH.
Qed.

Lemma append_length (a b : string) :
  String.length (a +:+ b) = String.length a + String.length b.
Proof.
  induction a as [|x a IH]; [reflexivity|].
  change (S (String.length (a +:+ b)) = S (String.length a + String.length b)).
  by rewrite IH.
Qed.

(** The regular expression drops a whole mention at the head of a text. *)
Lemma id_run_app (uid rest : string) :
  id_run uid = String.length uid ->
  id_run (uid +:+ String ">" rest) = String.length uid
  /\ substring (String.length uid) 1 (uid +:+ String ">" rest) = ">".
Proof.
  induction uid as [|c uid IH]; cbn.
  - intros _. split; [reflexivity|]. by destruct rest.
  - destruct (is_id_char c) eqn:E; [|discriminate].
    intros [= H]. destruct (IH H) as [H1 H2].
    change (String c uid +:+ String ">" rest)
      with (String c (uid +:+ String ">" rest)).
    cbn [id_run substring]. rewrite E, H1, H2. done.
Qed.

Lemma sub_mentions_skip (n : nat) (pre rest : string) :
  String.length pre = n ->
  sub_mentions_from n (pre +:+ rest) = sub_mentions_from 0 rest.
Proof.
  revert n. induction pre as [|c pre IH]; intros [|n] H; try discriminate H.
  - reflexivity.
  - change (String c pre +:+ rest) with (String c (pre +:+ rest)).
    cbn [sub_mentions_from]. apply IH. by injection H.
Qed.

Lemma sub_mentions_from_0 (c : ascii) (s : string) :
  sub_mentions_from 0 (String c s)
  = match mention_at (String c s) with
    | Some n => sub_mentions_from (n - 1) s
    | None => String c (sub_mentions_from 0 s)
    end.
Proof. reflexivity. Qed.

Lemma mention_at_head (uid rest : string) :
  uid <> "" ->
  id_run uid = String.length uid ->
  mention_at (String "<" (String "@" (uid +:+ String ">" rest)))
  = Some (String.length uid + 3).
Proof.
  intros Hne Hrun. cbv beta iota zeta delta [mention_at].
  destruct (id_run_app uid rest Hrun) as [-> ->].
  assert (Hpos : (0 <? String.length uid)%nat = true).
  { destruct uid; [done|reflexivity]. }
  by rewrite Hpos, String.eqb_refl.
Qed.

(** A well-formed mention in front of a text is removed whole. *)
Lemma sub_mentions_head (uid rest : string) :
  uid <> "" ->
  id_run uid = String.length uid ->
  sub_mentions (String "<" (String "@" (uid +:+ String ">" rest)))
  = sub_mentions rest.
Proof.
  intros Hne Hrun. unfold sub_mentions.
  rewrite sub_mentions_from_0, mention_at_head by done.
  replace (String "@" (uid +:+ String ">" rest))
    with (String "@" (uid +:+ ">") +:+ rest).
  - apply sub_mentions_skip.
    change (S (String.length (uid +:+ ">")) = String.length uid + 3 - 1).
    rewrite append_length. cbn. lia.
  - change (String "@" ((uid +:+ ">") +:+ rest)
            = String "@" (uid +:+ ">" +:+ rest)).
    by rewrite append_assoc.
Qed.

End BoltFacts.

Import Bolt BoltFacts.

(** X18. [handle_dm] ignores an event that does not come from a direct
    message channel or that a bot sent: nothing is posted, the model is not
    called, no session changes. *)
Theorem X18_handle_dm_ignores_other_events
  (api : list Request -> Request -> Outcome Response)
  (slack : list SlackCall -> SlackCall -> Result (option string))
  (event : Event) (p : Process) :
  ev_channel_type event <> Some "im" \/ truthy_opt (ev_bot_id event) = true ->
  handle_dm api slack event p = (Ok tt, p).
Proof.
  intros H. unfold handle_dm.
  destruct H as [H| ->].
  - by rewrite bool_decide_eq_false_2.
  - by rewrite orb_true_r.
Qed.

Lemma X18_handle_dm_ignores_other_events_witness :
  handle_dm Sample.api_echo slack_up (mention "U1" "hi") (process_of initial_world)
  = (Ok tt, process_of initial_world).
Proof.
  apply (X18_handle_dm_ignores_other_events Sample.api_echo slack_up
           (mention "U1" "hi") (process_of initial_world)).
  left. discriminate.
Defined.

(** X19. For a direct message of a person with a non-empty text, when the
    placeholder post gives a [ts] and [ask_claude], called once with that
    user and text, returns a reply (with a failing model that reply is the
    error text), [handle_dm] replaces the placeholder by the reply: same
    channel, the [ts] of the post.  The outcome of the handler is then the
    outcome of that update call, and the core state is the one [ask_claude]
    left. *)
Theorem X19_handle_dm_replaces_placeholder
  (api : list Request -> Request -> Outcome Response)
  (slack : list SlackCall -> SlackCall -> Result (option string))
  (event : Event) (p : Process) (user_id channel_id text ts : string)
  (reply : string) (w' : World) :
  ev_channel_type event = Some "im" ->
  truthy_opt (ev_bot_id event) = false ->
  ev_user event = Some user_id ->
  ev_channel event = Some channel_id ->
  ev_text event = Some text ->
  text <> "" ->
  slack (slack_calls p) (ChatPostMessage channel_id THINKING) = Ok (Some ts) ->
  App.ask_claude api user_id text (world p) = (Return reply, w') ->
  let post := ChatPostMessage channel_id THINKING in
  let update := ChatUpdate channel_id ts reply in
  handle_dm api slack event p
  = (match slack (slack_calls p ++ [post]) update with
     | Ok _ => Ok tt
     | Failed f => Failed f
     end,
     {| world := w';
        slack_calls := slack_calls p ++ [post; update];
        file_ids := file_ids p |}).
Proof.
  intros Hct Hbot Hu Hc Ht Hne Hpost Hrun post update. subst post update.
  unfold handle_dm. rewrite Hct, Hbot, Hu, Hc, Ht.
  rewrite bool_decide_eq_true_2 by done. cbn [negb orb default from_option id].
  assert (Htr : Py.truthy_str text = true) by (by destruct text).
  hrun. rewrite Htr, Hpost, Hrun. cbn -[app]. rewrite <- app_assoc.
  destruct (slack (slack_calls p ++ [_]) _); reflexivity.
Qed.

Lemma X19_handle_dm_replaces_placeholder_witness :
  let r := App.ask_claude Sample.api_down "U1" "hi" initial_world in
  handle_dm Sample.api_down slack_up (dm "U1" "hi") (process_of initial_world)
  = (Ok tt,
     {| world := r.2;
        slack_calls := [ChatPostMessage "D1" THINKING;
                        ChatUpdate "D1" "ts0" "API error: Connection error."];
        file_ids := ∅ |}).
Proof.
  intros r.
  apply (X19_handle_dm_replaces_placeholder Sample.api_down slack_up
           (dm "U1" "hi") (process_of initial_world) "U1" "D1" "hi" "ts0"
           "API error: Connection error." r.2); try reflexivity.
  discriminate.
Defined.

(** X20. If posting the placeholder fails, [handle_dm] fails with that
    error before anything else happens: the model is not called and no
    session changes. *)
Theorem X20_handle_dm_post_failure_stops
  (api : list Request -> Request -> Outcome Response)
  (slack : list SlackCall -> SlackCall -> Result (option string))
  (event : Event) (p : Process) (user_id channel_id text : string) (f : Fault) :
  ev_channel_type event = Some "im" ->
  truthy_opt (ev_bot_id event) = false ->
  ev_user event = Some user_id ->
  ev_channel event = Some channel_id ->
  ev_text event = Some text ->
  text <> "" ->
  slack (slack_calls p) (ChatPostMessage channel_id THINKING) = Failed f ->
  handle_dm api slack event p
  = (Failed f,
     {| world := world p;
        slack_calls := slack_calls p ++ [ChatPostMessage channel_id THINKING];
        file_ids := file_ids p |}).
Proof.
  intros Hct Hbot Hu Hc Ht Hne Hpost.
  unfold handle_dm. rewrite Hct, Hbot, Hu, Hc, Ht.
  rewrite bool_decide_eq_true_2 by done. cbn [negb orb default from_option id].
  assert (Htr : Py.truthy_str text = true) by (by destruct text).
  hrun. by rewrite Htr, Hpost.
Qed.

Lemma X20_handle_dm_post_failure_stops_witness :
  handle_dm Sample.api_echo slack_down (dm "U1" "hi") (process_of initial_world)
  = (Failed (SlackApiError "not_authed"),
     {| world := initial_world;
        slack_calls := [ChatPostMessage "D1" THINKING];
        file_ids := ∅ |}).
Proof.
  apply (X20_handle_dm_post_failure_stops Sample.api_echo slack_down
           (dm "U1" "hi") (process_of initial_world) "U1" "D1" "hi");
    try reflexivity.
  discriminate.
Defined.

(** X21. A mention whose text, once the mentions are removed and the rest
    trimmed, is empty is answered with the greeting: one [say], no call of
    the model, no session touched. *)
Theorem X21_handle_mention_greets_on_empty_message
  (api : list Request -> Request -> Outcome Response)
  (slack : list SlackCall -> SlackCall -> Result (option string))
  (event : Event) (p : Process) (user_id channel_id : string) :
  ev_user event = Some user_id ->
  ev_channel event = Some channel_id ->
  Py.strip (sub_mentions (default "" (ev_text event))) = "" ->
  handle_mention api slack event p
  = (match slack (slack_calls p) (Say "Hi! How can I help?") with
     | Ok _ => Ok tt
     | Failed f => Failed f
     end,
     {| world := world p;
        slack_calls := slack_calls p ++ [Say "Hi! How can I help?"];
        file_ids := file_ids p |}).
Proof.
  intros Hu Hc Hm. unfold handle_mention. rewrite Hu, Hc, Hm. hrun.
  destruct (slack _ _); reflexivity.
Qed.

Lemma X21_handle_mention_greets_on_empty_message_witness :
  handle_mention Sample.api_echo slack_up (mention "U1" "<@U0BOT42>  ")
    (process_of initial_world)
  = (Ok tt,
     {| world := initial_world;
        slack_calls := [Say "Hi! How can I help?"];
        file_ids := ∅ |}).
Proof.
  apply (X21_handle_mention_greets_on_empty_message Sample.api_echo slack_up
           (mention "U1" "<@U0BOT42>  ") (process_of initial_world) "U1" "C1");
    reflexivity.
Defined.

(** X22. A mention with a message asks the model with the text from which
    every mention was removed and the surrounding whitespace trimmed, then
    replaces the placeholder by the reply. *)
Theorem X22_handle_mention_asks_without_mentions
  (api : list Request -> Request -> Outcome Response)
  (slack : list SlackCall -> SlackCall -> Result (option string))
  (event : Event) (p : Process) (user_id channel_id ts : string) :
  ev_user event = Some user_id ->
  ev_channel event = Some channel_id ->
  let message := Py.strip (sub_mentions (default "" (ev_text event))) in
  message <> "" ->
  slack (slack_calls p) (ChatPostMessage channel_id THINKING) = Ok (Some ts) ->
  exists reply,
    App.ask_claude api user_id message (world p)
    = (Return reply, (App.ask_claude api user_id message (world p)).2)
    /\ let post := ChatPostMessage channel_id THINKING in
       let update := ChatUpdate channel_id ts reply in
       handle_mention api slack event p
       = (match slack (slack_calls p ++ [post]) update with
          | Ok _ => Ok tt
          | Failed f => Failed f
          end,
          {| world := (App.ask_claude api user_id message (world p)).2;
             slack_calls := slack_calls p ++ [post; update];
             file_ids := file_ids p |}).
Proof.
  intros Hu Hc message Hne Hpost.
  destruct (ask_claude_total api user_id message (world p)) as (w' & Hrun & _).
  eexists. split; [rewrite Hrun; reflexivity|].
  unfold handle_mention. rewrite Hu, Hc. fold message.
  assert (Htr : Py.truthy_str message = true) by (by destruct message).
  hrun. fold message. rewrite Htr, Hpost, Hrun. cbn -[app]. rewrite <- app_assoc.
  destruct (slack (slack_calls p ++ [_]) _); reflexivity.
Qed.

Lemma X22_handle_mention_asks_without_mentions_witness :
  exists reply,
    App.ask_claude Sample.api_echo "U1" "how do I cancel?" initial_world
    = (Return reply,
       (App.ask_claude Sample.api_echo "U1" "how do I cancel?" initial_world).2)
    /\ handle_mention Sample.api_echo slack_up
         (mention "U1" "<@U0BOT42> how do I cancel? ") (process_of initial_world)
       = (Ok tt,
          {| world := (App.ask_claude Sample.api_echo "U1" "how do I cancel?"
                         initial_world).2;
             slack_calls := [ChatPostMessage "C1" THINKING;
                             ChatUpdate "C1" "ts0" reply];
             file_ids := ∅ |}).
Proof.
  destruct (X22_handle_mention_asks_without_mentions Sample.api_echo slack_up
              (mention "U1" "<@U0BOT42> how do I cancel? ")
              (process_of initial_world) "U1" "C1" "ts0")
    as (reply & Hr & Hh); try reflexivity; [discriminate|].
  exists reply. split; [exact Hr|exact Hh].
Defined.

(** X23. [/ask-claude] with a blank text acknowledges the command and
    answers with the usage line; the model is not called and no session
    changes. *)
Theorem X23_ask_command_usage_on_blank_text
  (api : list Request -> Request -> Outcome Response)
  (slack : list SlackCall -> SlackCall -> Result (option string))
  (command : Command) (p : Process) (user_id channel_id : string) (r : option string) :
  cmd_user_id command = Some user_id ->
  cmd_channel_id command = Some channel_id ->
  Py.strip (default "" (cmd_text command)) = "" ->
  slack (slack_calls p) Ack = Ok r ->
  let usage := Say "Usage: `/ask-claude [your question]`" in
  ask_command api slack command p
  = (match slack (slack_calls p ++ [Ack]) usage with
     | Ok _ => Ok tt
     | Failed f => Failed f
     end,
     {| world := world p;
        slack_calls := slack_calls p ++ [Ack; usage];
        file_ids := file_ids p |}).
Proof.
  intros Hu Hc Ht Hack usage. unfold ask_command. rewrite Hu, Hc, Ht. hrun.
  rewrite Hack. cbn -[app]. rewrite <- app_assoc.
  destruct (slack (slack_calls p ++ [_]) _); reflexivity.
Qed.

Lemma X23_ask_command_usage_on_blank_text_witness :
  ask_command Sample.api_echo slack_up (slash "U1" "   ") (process_of initial_world)
  = (Ok tt,
     {| world := initial_world;
        slack_calls := [Ack; Say "Usage: `/ask-claude [your question]`"];
        file_ids := ∅ |}).
Proof.
  apply (X23_ask_command_usage_on_blank_text Sample.api_echo slack_up
           (slash "U1" "   ") (process_of initial_world) "U1" "C1" None);
    reflexivity.
Defined.

(** X24. [/claude-reset], when Slack accepts the acknowledgement, empties
    the session of the user of the command, leaves every other session and
    the index alone, and then confirms with [say]. *)
Theorem X24_reset_command_clears_one_session
  (slack : list SlackCall -> SlackCall -> Result (option string))
  (command : Command) (p : Process) (user_id : string) (r : option string) :
  cmd_user_id command = Some user_id ->
  slack (slack_calls p) Ack = Ok r ->
  let p' := (reset_command slack command p).2 in
  session user_id (world p') = []
  /\ (forall other, other <> user_id ->
                    conversations (world p') !! other
                    = conversations (world p) !! other)
  /\ _index (world p') = _index (world p)
  /\ api_calls (world p') = api_calls (world p)
  /\ slack_calls p' = slack_calls p ++ [Ack; Say "Conversation reset!"].
Proof.
  intros Hu Hack p'. subst p'.
  unfold reset_command, App.conversations_setitem. rewrite Hu. hrun.
  rewrite Hack. cbn -[app]. rewrite <- app_assoc.
  assert (Hs : forall m : gmap string (list Turn),
            default [] (<[user_id := []]> m !! user_id) = []).
  { intros m. by rewrite lookup_insert_eq. }
  destruct (slack (slack_calls p ++ [_]) _); cbn -[app];
    (split; [apply Hs|]); (split; [|done]);
    intros other Hne; by apply lookup_insert_ne.
Qed.

Lemma X24_reset_command_clears_one_session_witness :
  let p := process_of (ask_n Sample.api_echo "U1" Sample.message 1 2 initial_world) in
  let p' := (reset_command slack_up (slash "U1" "") p).2 in
  session "U1" (world p') = []
  /\ (forall other, other <> "U1" ->
                    conversations (world p') !! other
                    = conversations (world p) !! other)
  /\ _index (world p') = _index (world p)
  /\ api_calls (world p') = api_calls (world p)
  /\ slack_calls p' = slack_calls p ++ [Ack; Say "Conversation reset!"].
Proof.
  intros p.
  apply (X24_reset_command_clears_one_session slack_up
           (slash "U1" "") p "U1" None); reflexivity.
Defined.

(** X25. The substitution of [handle_mention] removes a well-formed mention
    (an opening, one or more characters of [A-Z0-9], a closing) in front of
    a text whole, whatever follows. *)
Theorem X25_leading_mention_is_removed (uid rest : string) :
  uid <> "" ->
  id_run uid = String.length uid ->
  sub_mentions ("<@" +:+ uid +:+ ">" +:+ rest) = sub_mentions rest.
Proof. intros Hne Hrun. by apply (sub_mentions_head uid rest). Qed.

Lemma X25_leading_mention_is_removed_witness :
  sub_mentions ("<@" +:+ "U0BOT42" +:+ ">" +:+ " <@x> hi")
  = sub_mentions " <@x> hi".
Proof.
  apply (X25_leading_mention_is_removed "U0BOT42" " <@x> hi");
    [discriminate | reflexivity].
Defined.

(** X26. [/ask-claude] with a question acknowledges the command first,
    posts the placeholder, asks the model once with the trimmed text for the
    user of the command and replaces the placeholder by the reply. *)
Theorem X26_ask_command_replies
  (api : list Request -> Request -> Outcome Response)
  (slack : list SlackCall -> SlackCall -> Result (option string))
  (command : Command) (p : Process) (user_id channel_id ts : string)
  (r : option string) :
  cmd_user_id command = Some user_id ->
  cmd_channel_id command = Some channel_id ->
  let text := Py.strip (default "" (cmd_text command)) in
  text <> "" ->
  slack (slack_calls p) Ack = Ok r ->
  slack (slack_calls p ++ [Ack]) (ChatPostMessage channel_id THINKING)
  = Ok (Some ts) ->
  exists reply,
    App.ask_claude api user_id text (world p)
    = (Return reply, (App.ask_claude api user_id text (world p)).2)
    /\ let post := ChatPostMessage channel_id THINKING in
       let update := ChatUpdate channel_id ts reply in
       ask_command api slack command p
       = (match slack (slack_calls p ++ [Ack; post]) update with
          | Ok _ => Ok tt
          | Failed f => Failed f
          end,
          {| world := (App.ask_claude api user_id text (world p)).2;
             slack_calls := slack_calls p ++ [Ack; post; update];
             file_ids := file_ids p |}).
Proof.
  intros Hu Hc text Hne Hack Hpost.
  destruct (ask_claude_total api user_id text (world p)) as (w' & Hrun & _).
  eexists. split; [rewrite Hrun; reflexivity|].
  unfold ask_command. rewrite Hu, Hc. fold text.
  assert (Htr : Py.truthy_str text = true) by (by destruct text).
  hrun. fold text. rewrite Hack. cbn -[app App.ask_claude].
  rewrite Htr. cbn -[app App.ask_claude].
  rewrite Hpost, Hrun. cbn -[app]. rewrite <- !app_assoc.
  destruct (slack (slack_calls p ++ _) (ChatUpdate _ _ _)); reflexivity.
Qed.

Lemma X26_ask_command_replies_witness :
  exists reply,
    App.ask_claude Sample.api_echo "U1" "refunds?" initial_world
    = (Return reply,
       (App.ask_claude Sample.api_echo "U1" "refunds?" initial_world).2)
    /\ ask_command Sample.api_echo slack_up (slash "U1" " refunds? ")
         (process_of initial_world)
       = (Ok tt,
          {| world := (App.ask_claude Sample.api_echo "U1" "refunds?"
                         initial_world).2;
             slack_calls := [Ack; ChatPostMessage "C1" THINKING;
                             ChatUpdate "C1" "ts1" reply];
             file_ids := ∅ |}).
Proof.
  destruct (X26_ask_command_replies Sample.api_echo slack_up
              (slash "U1" " refunds? ") (process_of initial_world)
              "U1" "C1" "ts1" None)
    as (reply & Hr & Hh); try reflexivity; [discriminate|].
  exists reply. split; [exact Hr|exact Hh].
Defined.
